(** * gns3/pages/server_preferences_page.py : the server preferences page

    A shallow embedding of [ServerPreferencesPage]: the widgets the slots
    read and write, the candidate dictionary [_remote_servers], the
    [Servers] and [Topology] collaborators, and the slots
    [_remoteServerAddSlot], [_remoteServerDeleteSlot], [loadPreferences]
    and [savePreferences] as state-passing functions that also return the
    ordered list of calls they make on their collaborators. *)

From Stdlib Require Import ZArith NArith List Bool Lia String Ascii.
From Stdlib Require Import DecimalString.
Import ListNotations.
Open Scope Z_scope.

(** ** Python strings

    A Python [str] is a sequence of Unicode code points. *)

Definition pystr := list N.

Definition py (s : string) : pystr :=
  List.map N_of_ascii (list_ascii_of_string s).

Definition pystr_eq_dec : forall a b : pystr, {a = b} + {a <> b} :=
  list_eq_dec N.eq_dec.

Definition pystr_eqb (a b : pystr) : bool :=
  if pystr_eq_dec a b then true else false.

(** [str(port)] for an [int]. *)
Definition str_of_int (z : Z) : pystr :=
  py (NilZero.string_of_int (Z.to_int z)).

Definition in_range (lo hi c : N) : bool := ((lo <=? c) && (c <=? hi))%N.

(** [str.isspace] on one code point (the table of CPython's
    [_PyUnicode_IsWhitespace]). *)
Definition isspace (c : N) : bool :=
  in_range 9 13 c || in_range 28 32 c || (c =? 133)%N || (c =? 160)%N
  || (c =? 5760)%N || in_range 8192 8202 c || (c =? 8232)%N
  || (c =? 8233)%N || (c =? 8239)%N || (c =? 8287)%N || (c =? 12288)%N.

Fixpoint dropWhile {A} (p : A -> bool) (l : list A) : list A :=
  match l with
  | [] => []
  | x :: t => if p x then dropWhile p t else l
  end.

Fixpoint takeWhile {A} (p : A -> bool) (l : list A) : list A :=
  match l with
  | [] => []
  | x :: t => if p x then x :: takeWhile p t else []
  end.

Definition lstrip (s : pystr) : pystr := dropWhile isspace s.
Definition rstrip (s : pystr) : pystr := rev (dropWhile isspace (rev s)).
(** [str.strip()] *)
Definition strip (s : pystr) : pystr := rstrip (lstrip s).

(** [str.lower()] on the ASCII letters; the text it is applied to is a
    label of the protocol combo box. *)
Definition lower_char (c : N) : N := if in_range 65 90 c then (c + 32)%N else c.
Definition lower (s : pystr) : pystr := List.map lower_char s.

(** ** The host pattern

    The pattern is built by substituting the three Unicode ranges
    U+0370-U+1CDF, U+2C00-U+30FF and U+4E00-U+9FBF for the braces of
    the character class: a-z, A-Z, 0-9, the dot, the three ranges, and the
    hyphen that closes the class; the class is repeated once or more
    between the anchors. *)

Definition host_char (c : N) : bool :=
  in_range 97 122 c          (* a-z *)
  || in_range 65 90 c        (* A-Z *)
  || in_range 48 57 c        (* 0-9 *)
  || (c =? 46)%N             (* \. *)
  || in_range 880 7391 c     (* U+0370 - U+1CDF *)
  || in_range 11264 12543 c  (* U+2C00 - U+30FF *)
  || in_range 19968 40895 c  (* U+4E00 - U+9FBF *)
  || (c =? 45)%N.            (* - *)

(** [re.match] of the pattern: one or more characters of the class, then
    [$], which matches at the end of the string and just before a newline
    that ends the string.  The newline is not in the class, so the greedy
    run of class characters is the only candidate. *)
Definition host_re_match (host : pystr) : bool :=
  match takeWhile host_char host, dropWhile host_char host with
  | [], _ => false
  | _ :: _, [] => true
  | _ :: _, [c] => (c =? 10)%N
  | _ :: _, _ => false
  end.

(** ** Widgets *)

(** A [QSpinBox]: [setValue] keeps the value inside [minimum, maximum]
    (Qt bounds it).  The range is set in the generated UI module
    [ui/server_preferences_page_ui.py], so it is a field of the widget.
    [setValue] is given here for an argument that is a C int: for any
    other PyQt raises OverflowError before Qt is called, and that is not
    represented; what is proved of numbers that come from the service's
    settings assumes [c_int] of them. *)
Record spinbox := SpinBox { sb_min : Z; sb_max : Z; sb_value : Z }.

Definition bound (lo hi v : Z) : Z := Z.max lo (Z.min hi v).

Definition setValue (sb : spinbox) (v : Z) : spinbox :=
  SpinBox (sb_min sb) (sb_max sb) (bound (sb_min sb) (sb_max sb) v).

(** A [QComboBox]: items (text, data) and the current index, -1 for none. *)
Record combobox := ComboBox { cb_items : list (pystr * pystr); cb_index : Z }.

Definition cb_nth (cb : combobox) (i : Z) : option (pystr * pystr) :=
  if i <? 0 then None else nth_error (cb_items cb) (Z.to_nat i).

(** [currentText()]: the empty string when there is no current item. *)
Definition currentText (cb : combobox) : pystr :=
  match cb_nth cb (cb_index cb) with Some (t, _) => t | None => [] end.

(** [itemData(index)]: [None] for an invalid index. *)
Definition itemData (cb : combobox) (i : Z) : option pystr :=
  option_map snd (cb_nth cb i).

Fixpoint find_index {A} (p : A -> bool) (l : list A) (i : Z) : Z :=
  match l with
  | [] => -1
  | x :: t => if p x then i else find_index p t (i + 1)
  end.

(** [findData(data)]: the index of the first item with that data, or -1. *)
Definition findData (cb : combobox) (d : pystr) : Z :=
  find_index (fun it => pystr_eqb (snd it) d) (cb_items cb) 0.

Definition setCurrentIndex (cb : combobox) (i : Z) : combobox :=
  ComboBox (cb_items cb) i.

(** ** Settings and records *)

(** The local server settings dictionary: the twelve keys that
    [savePreferences] writes, which are also the keys of the current
    settings it is compared with.  [host] is what [itemData] returned,
    [None] when the host selector has no current entry. *)
Record local_settings := LocalSettings {
  path : pystr;
  host : option pystr;
  port : Z;
  auto_start : bool;
  allow_console_from_anywhere : bool;
  console_start_port_range : Z;
  console_end_port_range : Z;
  udp_start_port_range : Z;
  udp_end_port_range : Z;
  images_path : pystr;
  projects_path : pystr;
  report_errors : bool
}.

Definition local_settings_eq_dec :
  forall a b : local_settings, {a = b} + {a <> b}.
Proof.
  decide equality;
    try apply Z.eq_dec; try apply bool_dec; try apply pystr_eq_dec.
  decide equality. apply pystr_eq_dec.
Defined.

(** The settings dictionary of one remote server. *)
Record remote_settings := RemoteSettings {
  r_protocol : pystr;
  r_host : pystr;
  r_port : Z;
  r_user : pystr;
  r_ssh_port : Z;
  r_ssh_key : pystr
}.


(** A server identifier: the key under which the [Servers] service holds a
    server, or a temporary [uuid.uuid4()] (128 bits). *)
Inductive server_id :=
| ServerKey (k : pystr)
| TempUuid (u : N).

Definition server_id_eq_dec : forall a b : server_id, {a = b} + {a <> b}.
Proof. decide equality; [apply pystr_eq_dec | apply N.eq_dec]. Defined.

(** ** Python dictionaries

    Insertion-ordered association lists with one entry per key. *)
Module Dict.
Section WithValue.
Context {V : Type}.

Definition t := list (server_id * V).

Fixpoint get (k : server_id) (d : t) : option V :=
  match d with
  | [] => None
  | (k', v) :: r => if server_id_eq_dec k k' then Some v else get k r
  end.

(** [d[k] = v] *)
Fixpoint set (k : server_id) (v : V) (d : t) : t :=
  match d with
  | [] => [(k, v)]
  | (k', v') :: r =>
      if server_id_eq_dec k k' then (k', v) :: r else (k', v') :: set k v r
  end.

(** [del d[k]] for a key that is present *)
Fixpoint del (k : server_id) (d : t) : t :=
  match d with
  | [] => []
  | (k', v') :: r =>
      if server_id_eq_dec k k' then r else (k', v') :: del k r
  end.

Definition keys (d : t) : list server_id := List.map fst d.
Definition values (d : t) : list V := List.map snd d.
Definition mem (k : server_id) (d : t) : bool :=
  match get k d with Some _ => true | None => false end.
End WithValue.
Arguments t : clear implicits.
End Dict.

(** ** The page *)

(** The widgets of the local server form. *)
Record local_form := LocalForm {
  uiLocalServerPathLineEdit : pystr;
  uiLocalServerHostComboBox : combobox;
  uiLocalServerPortSpinBox : spinbox;
  uiLocalServerAutoStartCheckBox : bool;
  uiConsoleConnectionsToAnyIPCheckBox : bool;
  uiConsoleStartPortSpinBox : spinbox;
  uiConsoleEndPortSpinBox : spinbox;
  uiUDPStartPortSpinBox : spinbox;
  uiUDPEndPortSpinBox : spinbox;
  (* setEnabled state of the three group boxes *)
  uiGeneralSettingsGroupBox : bool;
  uiConsolePortRangeGroupBox : bool;
  uiUDPPortRangeGroupBox : bool
}.

(** The edit fields of the remote server form.  The host line edit is
    named [uiRemoteServerPortLineEdit] in the source. *)
Record remote_form := RemoteForm {
  uiRemoteServerProtocolComboBox : combobox;
  uiRemoteServerPortLineEdit : pystr;
  uiRemoteServerPortSpinBox : spinbox;
  uiRemoteServerUserLineEdit : pystr;
  uiRemoteServerSSHPortSpinBox : spinbox;
  uiRemoteServerSSHKeyLineEdit : pystr
}.

(** A [QTreeWidgetItem] of the display list: its four columns and the two
    attributes the slots attach to it.  Column 2 is always set to
    [str(port)]; the item keeps the port and [text2] gives the text. *)
Record tree_item := TreeItem {
  text0 : pystr; text1 : pystr; column2 : Z; text3 : pystr;
  item_settings : remote_settings;
  item_server_id : server_id
}.

Definition text2 (it : tree_item) : pystr := str_of_int (column2 it).

Record page := Page {
  local_widgets : local_form;
  remote_widgets : remote_form;
  uiRemoteServersTreeWidget : list tree_item;
  _remote_servers : Dict.t remote_settings
}.

(** ** Collaborators *)

(** The text of each dialog the slots open. *)
Inductive dialog :=
| InvalidHostname (host : pystr)      (* "Invalid remote server hostname {}" *)
| InvalidRemotePort (port : Z)        (* "Invalid remote server port {}" *)
| MissingUserLogin                    (* "Missing user login" *)
| MissingSSHKey                       (* "Missing SSH key" *)
| AlreadyDefined                      (* "Remote server is already defined." *)
| InvalidConsoleRange (s e : Z)       (* "Invalid console port range from {} to {}" *)
| InvalidUDPRange (s e : Z)           (* "Invalid UDP port range from {} to {}" *)
| CouldNotFind (path : pystr)         (* "Could not find local server {}" *)
| NotExecutable (path : pystr)        (* "{} is not an executable" *)
| NodesOnLocalServer (nodes : list pystr) (* MessageBox "Please close your project ..." *)
| CouldNotStart (path : pystr).       (* "Could not start the local server process: {}" *)

(** The error each dialog stands for. *)
Inductive error :=
| InvalidHost | InvalidPort | MissingCredential | DuplicateServer
| InvalidRange | ServerPathNotFound | ServerNotExecutable | ServerInUse
| StartFailed.

Definition error_of (d : dialog) : error :=
  match d with
  | InvalidHostname _ => InvalidHost
  | InvalidRemotePort _ => InvalidPort
  | MissingUserLogin | MissingSSHKey => MissingCredential
  | AlreadyDefined => DuplicateServer
  | InvalidConsoleRange _ _ | InvalidUDPRange _ _ => InvalidRange
  | CouldNotFind _ => ServerPathNotFound
  | NotExecutable _ => ServerNotExecutable
  | NodesOnLocalServer _ => ServerInUse
  | CouldNotStart _ => StartFailed
  end.

(** What a slot does to the outside, in order: the dialogs it opens and
    the calls it makes on [Servers.instance()]. *)
Inductive call :=
| Report (d : dialog)
| stopLocalServer (wait : bool)
| startLocalServer
| setLocalServerSettings (s : local_settings)
| updateRemoteServers (d : Dict.t remote_settings)
| save
| WaitForConnection (h : option pystr) (p : Z).

(** Modelled from the spec: the settings service [Servers], whose module is
    not part of the sources.  It holds the local settings and the remote
    server collection, writes both to durable storage on [save()], and
    supervises the local server process. *)
Record servers := Servers {
  localServerSettings : local_settings;
  remoteServers : Dict.t remote_settings;
  stored : local_settings * Dict.t remote_settings;
  local_server_running : bool
}.

Definition sv_setLocalServerSettings (s : local_settings) (sv : servers) :=
  Servers s (remoteServers sv) (stored sv) (local_server_running sv).
Definition sv_updateRemoteServers (d : Dict.t remote_settings) (sv : servers) :=
  Servers (localServerSettings sv) d (stored sv) (local_server_running sv).
Definition sv_save (sv : servers) :=
  Servers (localServerSettings sv) (remoteServers sv)
          (localServerSettings sv, remoteServers sv) (local_server_running sv).
Definition sv_stopLocalServer (sv : servers) :=
  Servers (localServerSettings sv) (remoteServers sv) (stored sv) false.
Definition sv_startLocalServer (ok : bool) (sv : servers) :=
  Servers (localServerSettings sv) (remoteServers sv) (stored sv) ok.

(** A node of the open topology: [name()] and [server().isLocal()]. *)
Record node := Node { node_name : pystr; node_isLocal : bool }.

(** What the slots read from outside the page and the service: the file
    system ([os.path.isfile], [os.access(_, os.X_OK)]), the nodes of
    [Topology.instance()], and whether the local server process
    starts. *)
Record world := World {
  isfile : pystr -> bool;
  access_X_OK : pystr -> bool;
  topology_nodes : list node;
  start_succeeds : bool
}.

(** ** The slots *)

(** [_useLocalServerAutoStartSlot(state)] *)
Definition _useLocalServerAutoStartSlot (state : bool) (f : local_form) : local_form :=
  LocalForm (uiLocalServerPathLineEdit f) (uiLocalServerHostComboBox f)
    (uiLocalServerPortSpinBox f) (uiLocalServerAutoStartCheckBox f)
    (uiConsoleConnectionsToAnyIPCheckBox f) (uiConsoleStartPortSpinBox f)
    (uiConsoleEndPortSpinBox f) (uiUDPStartPortSpinBox f) (uiUDPEndPortSpinBox f)
    state state state.

(** [uiLocalServerAutoStartCheckBox.setChecked(b)]: [stateChanged] is
    emitted, and the slot above runs, when the state changes. *)
Definition setChecked_AutoStart (b : bool) (f : local_form) : local_form :=
  let f' :=
    LocalForm (uiLocalServerPathLineEdit f) (uiLocalServerHostComboBox f)
      (uiLocalServerPortSpinBox f) b
      (uiConsoleConnectionsToAnyIPCheckBox f) (uiConsoleStartPortSpinBox f)
      (uiConsoleEndPortSpinBox f) (uiUDPStartPortSpinBox f) (uiUDPEndPortSpinBox f)
      (uiGeneralSettingsGroupBox f) (uiConsolePortRangeGroupBox f)
      (uiUDPPortRangeGroupBox f) in
  if Bool.eqb b (uiLocalServerAutoStartCheckBox f) then f'
  else _useLocalServerAutoStartSlot b f'.

(** [_populateWidgets(settings)], for settings whose numbers are C ints
    (see [setValue]) and whose path the line edit keeps whole: [setText]
    cuts a text at the line edit's maxLength, which is not represented;
    what is proved of the path shown assumes [fits_line_edit] of it. *)
Definition _populateWidgets (settings : local_settings) (f : local_form) : local_form :=
  let combo := uiLocalServerHostComboBox f in
  let index := match host settings with
               | Some h => findData combo h
               | None => -1
               end in
  let combo' := if index =? -1 then combo else setCurrentIndex combo index in
  setChecked_AutoStart (auto_start settings)
    (LocalForm (path settings) combo'
       (setValue (uiLocalServerPortSpinBox f) (port settings))
       (uiLocalServerAutoStartCheckBox f)
       (allow_console_from_anywhere settings)
       (setValue (uiConsoleStartPortSpinBox f) (console_start_port_range settings))
       (setValue (uiConsoleEndPortSpinBox f) (console_end_port_range settings))
       (setValue (uiUDPStartPortSpinBox f) (udp_start_port_range settings))
       (setValue (uiUDPEndPortSpinBox f) (udp_end_port_range settings))
       (uiGeneralSettingsGroupBox f) (uiConsolePortRangeGroupBox f)
       (uiUDPPortRangeGroupBox f)).

(** [_restoreDefaultsSlot]; [LOCAL_SERVER_SETTINGS] comes from the settings
    module, so it is an argument. *)
Definition _restoreDefaultsSlot (LOCAL_SERVER_SETTINGS : local_settings) (p : page) : page :=
  Page (_populateWidgets LOCAL_SERVER_SETTINGS (local_widgets p))
       (remote_widgets p) (uiRemoteServersTreeWidget p) (_remote_servers p).

(** The test of the loop that looks for an already defined server. *)
Definition same_server (protocol host : pystr) (port : Z) (user : pystr)
    (server : remote_settings) : bool :=
  pystr_eqb (r_protocol server) protocol && pystr_eqb (r_host server) host
  && (r_port server =? port) && pystr_eqb (r_user server) user.

Definition set_port_spinbox (sb : spinbox) (f : remote_form) : remote_form :=
  RemoteForm (uiRemoteServerProtocolComboBox f) (uiRemoteServerPortLineEdit f)
    sb (uiRemoteServerUserLineEdit f) (uiRemoteServerSSHPortSpinBox f)
    (uiRemoteServerSSHKeyLineEdit f).

(** [_remoteServerAddSlot]; [uuid4] is the value [uuid.uuid4()] returns.
    The result is the page and the dialogs opened; the final
    [resizeColumnToContents(0)] only lays the tree widget out. *)
Definition _remoteServerAddSlot (uuid4 : N) (p : page) : page * list call :=
  let f := remote_widgets p in
  let protocol := lower (currentText (uiRemoteServerProtocolComboBox f)) in
  let host := strip (uiRemoteServerPortLineEdit f) in
  let port := sb_value (uiRemoteServerPortSpinBox f) in
  let user := strip (uiRemoteServerUserLineEdit f) in
  let ssh_port := sb_value (uiRemoteServerSSHPortSpinBox f) in
  let ssh_key := strip (uiRemoteServerSSHKeyLineEdit f) in
  if negb (host_re_match host) then
    (p, [Report (InvalidHostname host)])
  else if port <? 1 then
    (p, [Report (InvalidRemotePort port)])
  else if pystr_eqb protocol (py "ssh") && Nat.eqb (List.length user) 0 then
    (p, [Report MissingUserLogin])
  else if pystr_eqb protocol (py "ssh") && Nat.eqb (List.length ssh_key) 0 then
    (p, [Report MissingSSHKey])
  else if existsb (same_server protocol host port user)
                  (Dict.values (_remote_servers p)) then
    (p, [Report AlreadyDefined])
  else
    let settings := RemoteSettings protocol host port user ssh_port ssh_key in
    let item := TreeItem protocol host port user settings (TempUuid uuid4) in
    (Page (local_widgets p)
          (set_port_spinbox
             (setValue (uiRemoteServerPortSpinBox f)
                       (sb_value (uiRemoteServerPortSpinBox f) + 1)) f)
          (uiRemoteServersTreeWidget p ++ [item])
          (Dict.set (TempUuid uuid4) settings (_remote_servers p)),
     []).

Fixpoint remove_nth {A} (n : nat) (l : list A) : list A :=
  match n, l with
  | _, [] => []
  | O, _ :: t => t
  | S n', x :: t => x :: remove_nth n' t
  end.

(** [_remoteServerDeleteSlot]; [currentItem] is the position of the tree
    widget's current item, if there is one.  [None] is the failed
    assertion.  The locals [protocol], [host], [port] and [user] are read
    from the item and not used. *)
Definition _remoteServerDeleteSlot (currentItem : option nat) (p : page) : option page :=
  match currentItem with
  | None => Some p
  | Some i =>
      match nth_error (uiRemoteServersTreeWidget p) i with
      | None => Some p
      | Some item =>
          if Dict.mem (item_server_id item) (_remote_servers p) then
            Some (Page (local_widgets p) (remote_widgets p)
                       (remove_nth i (uiRemoteServersTreeWidget p))
                       (Dict.del (item_server_id item) (_remote_servers p)))
          else None
      end
  end.

(** The body of the loop of [loadPreferences] over
    [servers.remoteServers().items()]: the candidate dictionary and the
    display list so far, and the entry visited. *)
Definition load_server (acc : Dict.t remote_settings * list tree_item)
    (entry : server_id * remote_settings)
    : Dict.t remote_settings * list tree_item :=
  let (server_id, server) := entry in
  (Dict.set server_id server (fst acc),
   snd acc ++ [TreeItem (r_protocol server) (r_host server) (r_port server)
                        (r_user server) server server_id]).

(** [loadPreferences] *)
Definition loadPreferences (sv : servers) (p : page) : page :=
  let f := _populateWidgets (localServerSettings sv) (local_widgets p) in
  let loaded := fold_left load_server (remoteServers sv) ([], []) in
  Page f (remote_widgets p) (snd loaded) (fst loaded).

(** The dictionary [new_settings] that [savePreferences] builds from the
    widgets and from the three keys it copies from the current settings. *)
Definition new_settings_of (current_settings : local_settings) (f : local_form)
    : local_settings :=
  LocalSettings
    (uiLocalServerPathLineEdit f)
    (itemData (uiLocalServerHostComboBox f) (cb_index (uiLocalServerHostComboBox f)))
    (sb_value (uiLocalServerPortSpinBox f))
    (uiLocalServerAutoStartCheckBox f)
    (uiConsoleConnectionsToAnyIPCheckBox f)
    (sb_value (uiConsoleStartPortSpinBox f))
    (sb_value (uiConsoleEndPortSpinBox f))
    (sb_value (uiUDPStartPortSpinBox f))
    (sb_value (uiUDPEndPortSpinBox f))
    (images_path current_settings)
    (projects_path current_settings)
    (report_errors current_settings).

(** The names of the nodes whose server is local, in topology order. *)
Definition local_nodes_of (w : world) : list pystr :=
  List.map node_name (List.filter node_isLocal (topology_nodes w)).

(** [savePreferences]: the service after the slot and the calls it made,
    in order.  A [return] of the source is a branch that stops with the
    service and the calls made so far. *)
Definition savePreferences (w : world) (p : page) (sv : servers)
    : servers * list call :=
  let current_settings := localServerSettings sv in
  let new_settings := new_settings_of current_settings (local_widgets p) in
  if console_end_port_range new_settings <=? console_start_port_range new_settings then
    (sv, [Report (InvalidConsoleRange (console_start_port_range new_settings)
                                      (console_end_port_range new_settings))])
  else if udp_end_port_range new_settings <=? udp_start_port_range new_settings then
    (sv, [Report (InvalidUDPRange (udp_start_port_range new_settings)
                                  (udp_end_port_range new_settings))])
  else
    (* the statement [if new_settings["auto_start"]: ... else: ...]: the
       calls of a [return] (left), or the service, the calls and
       [restart_local_server] with which the slot goes on (right) *)
    let checked : list call + servers * list call * bool :=
      if auto_start new_settings then
        if negb (isfile w (path new_settings)) then
          inl [Report (CouldNotFind (path new_settings))]
        else
          let not_executable :=
            if negb (access_X_OK w (path new_settings))
            then [Report (NotExecutable (path new_settings))] else [] in
          if local_settings_eq_dec new_settings current_settings then
            inr (sv, not_executable, false)
          else
            match local_nodes_of w with
            | [] => inr (sv, not_executable, true)
            | local_nodes =>
                inl (not_executable ++ [Report (NodesOnLocalServer local_nodes)])
            end
      else
        inr (sv_stopLocalServer sv, [stopLocalServer true], false) in
    match checked with
    | inl calls => (sv, calls)
    | inr (sv1, calls, restart_local_server) =>
        let sv2 :=
          sv_save (sv_updateRemoteServers (_remote_servers p)
                     (sv_setLocalServerSettings new_settings sv1)) in
        let calls2 :=
          calls ++ [setLocalServerSettings new_settings;
                    updateRemoteServers (_remote_servers p); save] in
        if restart_local_server then
          let sv3 := sv_startLocalServer (start_succeeds w) (sv_stopLocalServer sv2) in
          if start_succeeds w then
            (sv3, calls2 ++ [stopLocalServer true; startLocalServer;
                             WaitForConnection (host new_settings) (port new_settings)])
          else
            (sv3, calls2 ++ [stopLocalServer true; startLocalServer;
                             Report (CouldNotStart (path new_settings))])
        else (sv2, calls2)
    end.

(** ** Observations on the calls of a slot *)

(** The three calls that write settings: [setLocalServerSettings],
    [updateRemoteServers] and [save]. *)
Definition is_write (c : call) : bool :=
  match c with
  | setLocalServerSettings _ | updateRemoteServers _ | save => true
  | _ => false
  end.

Definition is_report (c : call) : bool :=
  match c with Report _ => true | _ => false end.

(** The errors reported, in order. *)
Definition errors_of (calls : list call) : list error :=
  flat_map (fun c => match c with Report d => [error_of d] | _ => [] end) calls.

(** The quadruple that identifies a remote server. *)
Definition quadruple (r : remote_settings) : pystr * pystr * Z * pystr :=
  (r_protocol r, r_host r, r_port r, r_user r).

(** A dictionary of remote servers in which no two records have the same
    quadruple (and, as in any dictionary, no two entries the same key). *)
Definition unique_servers (d : Dict.t remote_settings) : Prop :=
  NoDup (Dict.keys d) /\ NoDup (List.map quadruple (Dict.values d)).

(** ** The paths of [savePreferences] *)

(** The dialog of the executable check, when it opens. *)
Definition not_executable_report (w : world) (s : local_settings) : list call :=
  if negb (access_X_OK w (path s)) then [Report (NotExecutable (path s))] else [].

(** The service once the three writes are done. *)
Definition written (s : local_settings) (d : Dict.t remote_settings) (sv : servers) : servers :=
  sv_save (sv_updateRemoteServers d (sv_setLocalServerSettings s sv)).

Definition writes (s : local_settings) (d : Dict.t remote_settings) : list call :=
  [setLocalServerSettings s; updateRemoteServers d; save].

Definition ranges_valid (s : local_settings) : Prop :=
  console_start_port_range s < console_end_port_range s
  /\ udp_start_port_range s < udp_end_port_range s.

(** The paths through [savePreferences], each with the conditions under
    which it is taken. *)
Inductive save_path (w : world) (p : page) (sv : servers)
  : servers * list call -> Prop :=
| path_console_range :
    let s := new_settings_of (localServerSettings sv) (local_widgets p) in
    console_end_port_range s <= console_start_port_range s ->
    save_path w p sv
      (sv, [Report (InvalidConsoleRange (console_start_port_range s)
                                        (console_end_port_range s))])
| path_udp_range :
    let s := new_settings_of (localServerSettings sv) (local_widgets p) in
    console_start_port_range s < console_end_port_range s ->
    udp_end_port_range s <= udp_start_port_range s ->
    save_path w p sv
      (sv, [Report (InvalidUDPRange (udp_start_port_range s) (udp_end_port_range s))])
| path_not_found :
    let s := new_settings_of (localServerSettings sv) (local_widgets p) in
    ranges_valid s -> auto_start s = true -> isfile w (path s) = false ->
    save_path w p sv (sv, [Report (CouldNotFind (path s))])
| path_in_use :
    let s := new_settings_of (localServerSettings sv) (local_widgets p) in
    ranges_valid s -> auto_start s = true -> isfile w (path s) = true ->
    s <> localServerSettings sv -> local_nodes_of w <> [] ->
    save_path w p sv
      (sv, not_executable_report w s ++ [Report (NodesOnLocalServer (local_nodes_of w))])
| path_unchanged :
    let s := new_settings_of (localServerSettings sv) (local_widgets p) in
    ranges_valid s -> auto_start s = true -> isfile w (path s) = true ->
    s = localServerSettings sv ->
    save_path w p sv
      (written s (_remote_servers p) sv,
       not_executable_report w s ++ writes s (_remote_servers p))
| path_restart :
    let s := new_settings_of (localServerSettings sv) (local_widgets p) in
    ranges_valid s -> auto_start s = true -> isfile w (path s) = true ->
    s <> localServerSettings sv -> local_nodes_of w = [] ->
    save_path w p sv
      (sv_startLocalServer (start_succeeds w)
         (sv_stopLocalServer (written s (_remote_servers p) sv)),
       (not_executable_report w s ++ writes s (_remote_servers p))
         ++ [stopLocalServer true; startLocalServer;
             if start_succeeds w then WaitForConnection (host s) (port s)
             else Report (CouldNotStart (path s))])
| path_auto_start_off :
    let s := new_settings_of (localServerSettings sv) (local_widgets p) in
    ranges_valid s -> auto_start s = false ->
    save_path w p sv
      (written s (_remote_servers p) (sv_stopLocalServer sv),
       stopLocalServer true :: writes s (_remote_servers p)).

(** A start of the local server process or the wait for its connection. *)
Definition is_restart (c : call) : bool :=
  match c with
  | startLocalServer | WaitForConnection _ _ => true
  | _ => false
  end.

(** ** The checks of [_remoteServerAddSlot] *)

(** What the slot reads from the form. *)
Definition form_protocol (p : page) : pystr :=
  lower (currentText (uiRemoteServerProtocolComboBox (remote_widgets p))).
Definition form_host (p : page) : pystr :=
  strip (uiRemoteServerPortLineEdit (remote_widgets p)).
Definition form_port (p : page) : Z :=
  sb_value (uiRemoteServerPortSpinBox (remote_widgets p)).
Definition form_user (p : page) : pystr :=
  strip (uiRemoteServerUserLineEdit (remote_widgets p)).
Definition form_ssh_port (p : page) : Z :=
  sb_value (uiRemoteServerSSHPortSpinBox (remote_widgets p)).
Definition form_ssh_key (p : page) : pystr :=
  strip (uiRemoteServerSSHKeyLineEdit (remote_widgets p)).

(** The record the slot builds. *)
Definition form_settings (p : page) : remote_settings :=
  RemoteSettings (form_protocol p) (form_host p) (form_port p) (form_user p)
                 (form_ssh_port p) (form_ssh_key p).

(** The first check that fails, if any, with its dialog. *)
Definition add_failure (p : page) : option dialog :=
  if negb (host_re_match (form_host p)) then Some (InvalidHostname (form_host p))
  else if form_port p <? 1 then Some (InvalidRemotePort (form_port p))
  else if pystr_eqb (form_protocol p) (py "ssh") && Nat.eqb (List.length (form_user p)) 0
    then Some MissingUserLogin
  else if pystr_eqb (form_protocol p) (py "ssh") && Nat.eqb (List.length (form_ssh_key p)) 0
    then Some MissingSSHKey
  else if existsb (same_server (form_protocol p) (form_host p) (form_port p) (form_user p))
                  (Dict.values (_remote_servers p))
    then Some AlreadyDefined
  else None.

(** The page after a successful add. *)
Definition added (uuid4 : N) (p : page) : page :=
  Page (local_widgets p)
       (set_port_spinbox
          (setValue (uiRemoteServerPortSpinBox (remote_widgets p)) (form_port p + 1))
          (remote_widgets p))
       (uiRemoteServersTreeWidget p
          ++ [TreeItem (form_protocol p) (form_host p) (form_port p) (form_user p)
                       (form_settings p) (TempUuid uuid4)])
       (Dict.set (TempUuid uuid4) (form_settings p) (_remote_servers p)).

(** ** The page as a state machine *)

(** The user actions that run a slot, with what each slot reads from
    outside the page.  [Edit] stands for the user typing in the form and
    for the slots that only fill widgets ([_remoteServerClickedSlot],
    [_remoteServerProtocolCurrentIndexSlot] and the two file
    browsers): the widgets take new contents, the display list and the
    candidate dictionary stay. *)
Inductive operation :=
| Add (uuid4 : N)
| Delete (currentItem : option nat)
| Load
| Save (w : world)
| RestoreDefaults (defaults : local_settings)
| Edit (l : local_form) (r : remote_form).

Definition state := (page * servers)%type.

(** One action; [None] is the failed assertion of the delete slot. *)
Definition run (o : operation) (st : state) : option state :=
  let (p, sv) := st in
  match o with
  | Add uuid4 => Some (fst (_remoteServerAddSlot uuid4 p), sv)
  | Delete currentItem =>
      option_map (fun p' => (p', sv)) (_remoteServerDeleteSlot currentItem p)
  | Load => Some (loadPreferences sv p, sv)
  | Save w => Some (p, fst (savePreferences w p sv))
  | RestoreDefaults defaults => Some (_restoreDefaultsSlot defaults p, sv)
  | Edit l r => Some (Page l r (uiRemoteServersTreeWidget p) (_remote_servers p), sv)
  end.

(** Neither the candidate dictionary nor the collection of the service
    holds two records with the same quadruple. *)
Definition invariant (st : state) : Prop :=
  unique_servers (_remote_servers (fst st))
  /\ unique_servers (remoteServers (snd st)).

(** A sequence of actions, stopping at a failed assertion. *)
Fixpoint run_all (ops : list operation) (st : state) : option state :=
  match ops with
  | [] => Some st
  | o :: ops' =>
      match run o st with
      | Some st' => run_all ops' st'
      | None => None
      end
  end.

(** ** The remaining slots and the constructor *)

(** [str.upper()] on the ASCII letters, with which it agrees on ASCII
    text; what is proved through it assumes [ascii_text] of its
    argument. *)
Definition upper_char (c : N) : N := if in_range 97 122 c then (c - 32)%N else c.
Definition upper (s : pystr) : pystr := List.map upper_char s.

(** [findText(text)]: the index of the first item with that text, or -1. *)
Definition findText (cb : combobox) (t : pystr) : Z :=
  find_index (fun it => pystr_eqb (fst it) t) (cb_items cb) 0.

(** [addItem(text, data)]: the item goes last; an empty combo box makes
    its first item the current one. *)
Definition addItem (cb : combobox) (text data : pystr) : combobox :=
  ComboBox (cb_items cb ++ [(text, data)])
           (match cb_items cb with [] => 0 | _ :: _ => cb_index cb end).

(** Whether each of the seven SSH widgets is shown. *)
Record ssh_widgets := SshWidgets {
  shown_UserLabel : bool;
  shown_UserLineEdit : bool;
  shown_SSHPortLabel : bool;
  shown_SSHPortSpinBox : bool;
  shown_SSHKeyLabel : bool;
  shown_SSHKeyLineEdit : bool;
  shown_SSHKeyPushButton : bool
}.

Definition set_user (user : pystr) (f : remote_form) : remote_form :=
  RemoteForm (uiRemoteServerProtocolComboBox f) (uiRemoteServerPortLineEdit f)
    (uiRemoteServerPortSpinBox f) user (uiRemoteServerSSHPortSpinBox f)
    (uiRemoteServerSSHKeyLineEdit f).

(** [_remoteServerProtocolCurrentIndexSlot(index)]: the index is not
    used, the current text is. *)
Definition _remoteServerProtocolCurrentIndexSlot (fv : remote_form * ssh_widgets)
    : remote_form * ssh_widgets :=
  let (f, v) := fv in
  if pystr_eqb (currentText (uiRemoteServerProtocolComboBox f)) (py "SSH") then
    (set_user [] f, SshWidgets true true true true true true true)
  else
    (f, SshWidgets false false false false false false false).

(** [uiRemoteServerProtocolComboBox.setCurrentIndex(i)]:
    [currentIndexChanged] is emitted, and the slot above runs, when the
    index changes. *)
Definition setCurrentIndex_Protocol (i : Z) (fv : remote_form * ssh_widgets)
    : remote_form * ssh_widgets :=
  let (f, v) := fv in
  let f' :=
    RemoteForm (setCurrentIndex (uiRemoteServerProtocolComboBox f) i)
      (uiRemoteServerPortLineEdit f) (uiRemoteServerPortSpinBox f)
      (uiRemoteServerUserLineEdit f) (uiRemoteServerSSHPortSpinBox f)
      (uiRemoteServerSSHKeyLineEdit f) in
  if i =? cb_index (uiRemoteServerProtocolComboBox f) then (f', v)
  else _remoteServerProtocolCurrentIndexSlot (f', v).

(** [_remoteServerClickedSlot(item, column)] on an item whose settings
    hold an [int] port and the keys [ssh_key] and [ssh_port], as every
    [remote_settings] does: [int(settings["port"])] does not raise and
    the two [get] find their key.  As for [_populateWidgets], the ports
    are taken to be C ints and the three texts to be ones the line edits
    keep whole ([shown_whole]). *)
Definition _remoteServerClickedSlot (item : tree_item)
    (fv : remote_form * ssh_widgets) : remote_form * ssh_widgets :=
  let settings := item_settings item in
  let protocol := upper (r_protocol settings) in
  let port := r_port settings in
  let (f, v) :=
    setCurrentIndex_Protocol
      (findText (uiRemoteServerProtocolComboBox (fst fv)) protocol) fv in
  (RemoteForm (uiRemoteServerProtocolComboBox f)
     (r_host settings)
     (setValue (uiRemoteServerPortSpinBox f) port)
     (r_user settings)
     (setValue (uiRemoteServerSSHPortSpinBox f) (r_ssh_port settings))
     (r_ssh_key settings),
   v).

(** A [QHostAddress]: [toString()] and whether [protocol()] is IPv6. *)
Record address := Address { toString : pystr; is_IPv6 : bool }.

(** The loop of [__init__] over [QNetworkInterface.allAddresses()]. *)
Definition load_addresses (addresses : list address) (cb : combobox) : combobox :=
  fold_left
    (fun cb a => if is_IPv6 a then cb else addItem cb (toString a) (toString a))
    addresses cb.

(** [__init__]; [ui] holds the widgets as [setupUi] made them. *)
Definition __init__ (addresses : list address) (ui : page * ssh_widgets)
    : page * ssh_widgets :=
  let (p, v) := ui in
  let f := local_widgets p in
  let combo := load_addresses addresses (uiLocalServerHostComboBox f) in
  let index := findText combo (py "127.0.0.1") in
  let combo' := if index =? -1 then combo else setCurrentIndex combo index in
  let f' :=
    LocalForm (uiLocalServerPathLineEdit f) combo'
      (uiLocalServerPortSpinBox f) (uiLocalServerAutoStartCheckBox f)
      (uiConsoleConnectionsToAnyIPCheckBox f) (uiConsoleStartPortSpinBox f)
      (uiConsoleEndPortSpinBox f) (uiUDPStartPortSpinBox f) (uiUDPEndPortSpinBox f)
      (uiGeneralSettingsGroupBox f) (uiConsolePortRangeGroupBox f)
      (uiUDPPortRangeGroupBox f) in
  let (r, v') := _remoteServerProtocolCurrentIndexSlot (remote_widgets p, v) in
  (Page f' r (uiRemoteServersTreeWidget p) [], v').

(** ** The display list and the candidate dictionary *)

(** The item that the add slot and the load loop make for an entry. *)
Definition item_of (entry : server_id * remote_settings) : tree_item :=
  let (id, r) := entry in
  TreeItem (r_protocol r) (r_host r) (r_port r) (r_user r) r id.

(** The display list shows the entries of the candidate dictionary, one
    item each and in the same order. *)
Definition mirrors (p : page) : Prop :=
  NoDup (Dict.keys (_remote_servers p))
  /\ uiRemoteServersTreeWidget p = List.map item_of (_remote_servers p).

(** The list mirrors the dictionary and the service holds a dictionary. *)
Definition consistent (st : state) : Prop :=
  mirrors (fst st) /\ NoDup (Dict.keys (remoteServers (snd st))).

(** What [uuid4()] returns for an add is not yet a key of the candidate
    dictionary. *)
Definition fresh_uuid (o : operation) (p : page) : Prop :=
  match o with
  | Add uuid4 => Dict.get (TempUuid uuid4) (_remote_servers p) = None
  | _ => True
  end.

(** A record as the add slot stores it: lower-case protocol, stripped
    host, user and key. *)
Definition normalised (r : remote_settings) : Prop :=
  lower (r_protocol r) = r_protocol r
  /\ strip (r_host r) = r_host r
  /\ strip (r_user r) = r_user r
  /\ strip (r_ssh_key r) = r_ssh_key r.

(** A number that PyQt passes to Qt as a C int. *)
Definition c_int (v : Z) : Prop := -2147483648 <= v <= 2147483647.

(** The length of a text as Qt counts it, in UTF-16 units: two for a
    code point above U+FFFF. *)
Definition utf16_length (s : pystr) : Z :=
  fold_right (fun c n => (if (c <? 65536)%N then 1 else 2) + n) 0 s.

(** A text that a [QLineEdit] keeps whole: [setText] cuts at maxLength,
    which is 32767 unless changed. *)
Definition fits_line_edit (s : pystr) : Prop := utf16_length s <= 32767.

(** A text of ASCII characters. *)
Definition ascii_text (s : pystr) : Prop := Forall (fun c => (c < 128)%N) s.

(** The five numbers of the settings are C ints: the [setValue] calls of
    [_populateWidgets] do not raise. *)
Definition numbers_c_int (s : local_settings) : Prop :=
  c_int (port s)
  /\ c_int (console_start_port_range s) /\ c_int (console_end_port_range s)
  /\ c_int (udp_start_port_range s) /\ c_int (udp_end_port_range s).

(** A record that the click slot shows whole: ASCII protocol, host, user
    and key within the line edits' length, ports that are C ints. *)
Definition shown_whole (r : remote_settings) : Prop :=
  ascii_text (r_protocol r)
  /\ fits_line_edit (r_host r) /\ fits_line_edit (r_user r)
  /\ fits_line_edit (r_ssh_key r)
  /\ c_int (r_port r) /\ c_int (r_ssh_port r).

(** The value is one that the spin box can hold. *)
Definition in_spinbox (sb : spinbox) (v : Z) : Prop := sb_min sb <= v <= sb_max sb.

(** The current settings are ones the form can show: each number within
    the range of its spin box, and the host among the data of the host
    selector. *)
Definition showable (s : local_settings) (f : local_form) : Prop :=
  in_spinbox (uiLocalServerPortSpinBox f) (port s)
  /\ in_spinbox (uiConsoleStartPortSpinBox f) (console_start_port_range s)
  /\ in_spinbox (uiConsoleEndPortSpinBox f) (console_end_port_range s)
  /\ in_spinbox (uiUDPStartPortSpinBox f) (udp_start_port_range s)
  /\ in_spinbox (uiUDPEndPortSpinBox f) (udp_end_port_range s)
  /\ exists h, host s = Some h /\ findData (uiLocalServerHostComboBox f) h <> -1.

(** A record that the form can show again: its protocol is on the protocol
    selector in upper case and its two ports are within the spin boxes'
    ranges. *)
Definition selectable (r : remote_settings) (f : remote_form) : Prop :=
  findText (uiRemoteServerProtocolComboBox f) (upper (r_protocol r)) <> -1
  /\ in_spinbox (uiRemoteServerPortSpinBox f) (r_port r)
  /\ in_spinbox (uiRemoteServerSSHPortSpinBox f) (r_ssh_port r).

(** The three group boxes are enabled exactly when auto-start is checked. *)
Definition groups_follow_auto_start (f : local_form) : Prop :=
  uiGeneralSettingsGroupBox f = uiLocalServerAutoStartCheckBox f
  /\ uiConsolePortRangeGroupBox f = uiLocalServerAutoStartCheckBox f
  /\ uiUDPPortRangeGroupBox f = uiLocalServerAutoStartCheckBox f.

(** ** Concrete pages, services and worlds *)
Module Sample.

Definition port_box (v : Z) : spinbox := SpinBox 1 65535 v.

Definition hosts : combobox :=
  ComboBox [(py "127.0.0.1", py "127.0.0.1"); (py "192.168.1.5", py "192.168.1.5")] 0.

Definition protocols (i : Z) : combobox :=
  ComboBox [(py "HTTP", []); (py "SSH", [])] i.

Definition form (path : string) (auto : bool) (cs ce us ue : Z) : local_form :=
  LocalForm (py path) hosts (port_box 8000) auto false
    (port_box cs) (port_box ce) (port_box us) (port_box ue) auto auto auto.

Definition remote (proto : Z) (h : string) (port : Z) (user key : string) : remote_form :=
  RemoteForm (protocols proto) (py h) (port_box port) (py user) (port_box 22) (py key).

Definition settings (path : string) (auto : bool) (cs ce us ue : Z) : local_settings :=
  LocalSettings (py path) (Some (py "127.0.0.1")) 8000 auto false cs ce us ue
    (py "/home/u/GNS3/images") (py "/home/u/GNS3/projects") true.

Definition service (s : local_settings) : servers := Servers s [] (s, []) true.

Definition r1 : remote_settings :=
  RemoteSettings (py "ssh") (py "lab1") 8000 (py "admin") 22 (py "/home/u/.ssh/id_rsa").

Definition one_server : Dict.t remote_settings := [(ServerKey (py "ssh://admin@lab1:8000"), r1)].

Definition item1 : tree_item :=
  TreeItem (py "ssh") (py "lab1") 8000 (py "admin") r1 (ServerKey (py "ssh://admin@lab1:8000")).

(** A world whose only file is /usr/bin/gns3server. *)
Definition world_with (executable : bool) (nodes : list node) (start : bool) : world :=
  World (fun f => pystr_eqb f (py "/usr/bin/gns3server"))
        (fun f => pystr_eqb f (py "/usr/bin/gns3server") && executable)
        nodes start.

Definition R1 : node := Node (py "R1") true.
Definition SW1 : node := Node (py "SW1") false.

End Sample.

(** Pages for [savePreferences]. *)
Module SaveSamples.
Import Sample.

Definition good : local_settings := settings "/usr/bin/gns3server" true 2000 2999 10000 20000.

Definition page_with (f : local_form) : page :=
  Page f (remote 0 "lab2" 8001 "" "") [item1] one_server.

(** The form shows exactly [good]. *)
Definition unchanged_page : page :=
  page_with (form "/usr/bin/gns3server" true 2000 2999 10000 20000).
(** Console range 3000..2000 and UDP range 20000..10000. *)
Definition bad_ranges_page : page :=
  page_with (form "/usr/bin/gns3server" true 3000 2000 20000 10000).
(** A path that is not a file, and console range 2000..2000. *)
Definition missing_bad_range_page : page :=
  page_with (form "/opt/missing" true 2000 2000 10000 20000).
(** A path that is not a file, ranges valid. *)
Definition missing_page : page :=
  page_with (form "/opt/missing" true 2000 2999 10000 20000).
Definition missing : local_settings := settings "/opt/missing" true 2000 2999 10000 20000.
(** The console range changed to 3000..3999. *)
Definition changed_page : page :=
  page_with (form "/usr/bin/gns3server" true 3000 3999 10000 20000).
Definition changed : local_settings := settings "/usr/bin/gns3server" true 3000 3999 10000 20000.
(** auto_start unchecked. *)
Definition off_page : page :=
  page_with (form "/usr/bin/gns3server" false 2000 2999 10000 20000).
Definition off : local_settings := settings "/usr/bin/gns3server" false 2000 2999 10000 20000.

(** auto_start unchecked and console range 3000..2000. *)
Definition off_bad_range_page : page :=
  page_with (form "/usr/bin/gns3server" false 3000 2000 10000 20000).

End SaveSamples.

(** Pages for [_remoteServerAddSlot]. *)
Module AddSamples.
Import Sample.

Definition page_with (r : remote_form) (tree : list tree_item)
    (d : Dict.t remote_settings) : page :=
  Page (form "/usr/bin/gns3server" true 2000 2999 10000 20000) r tree d.

(** An empty host and port 0 in a spin box whose range starts at 0. *)
Definition empty_host_port_0 : page :=
  page_with (RemoteForm (protocols 0) [] (SpinBox 0 65535 0) [] (port_box 22) [])
            [item1] one_server.

(** SSH, host "lab2", a blank user and no key. *)
Definition ssh_no_user : page :=
  page_with (remote 1 "lab2" 8001 "  " "") [item1] one_server.

(** SSH, no user, and a host with a space and an underscore in it. *)
Definition ssh_no_user_bad_host : page :=
  page_with (remote 1 "my_lab 2" 8001 "" "") [item1] one_server.

(** The quadruple of [r1], with the key field left empty. *)
Definition same_as_r1_no_key : page :=
  page_with (remote 1 "lab1" 8000 "admin" "") [item1] one_server.

(** The quadruple of [r1], with another key. *)
Definition same_as_r1 : page :=
  page_with (remote 1 "lab1" 8000 "admin" "/home/u/.ssh/other") [item1] one_server.

(** HTTP to lab2:8001. *)
Definition http_lab2 : page :=
  page_with (remote 0 " lab2 " 8001 "" "") [item1] one_server.

(** HTTP to lab2, with the port at the top of the spin box's range. *)
Definition http_lab2_last_port : page :=
  page_with (remote 0 "lab2" 65535 "" "") [item1] one_server.



End AddSamples.

(** Pages, services and addresses for the remaining slots. *)
Module MoreSamples.
Import Sample.

(** A service that holds [r1]. *)
Definition service_with_r1 : servers :=
  Servers SaveSamples.good one_server (SaveSamples.good, one_server) true.

(** The widgets as [setupUi] might leave them: empty selectors and lists. *)
Definition fresh_ui : page :=
  Page (LocalForm [] (ComboBox [] (-1)) (port_box 8000) false false
          (port_box 2000) (port_box 5000) (port_box 10000) (port_box 20000)
          true true true)
       (RemoteForm (protocols 0) [] (port_box 8000) [] (port_box 22) [])
       [] [].

Definition all_hidden : ssh_widgets :=
  SshWidgets false false false false false false false.

(** One IPv6 and two IPv4 addresses. *)
Definition addresses : list address :=
  [Address (py "fe80::1") true; Address (py "192.168.1.5") false;
   Address (py "127.0.0.1") false].

End MoreSamples.

(** ** [savePreferences], path by path *)
Section SavePaths.

Variables (w : world) (p : page) (sv : servers).

Let new_settings := new_settings_of (localServerSettings sv) (local_widgets p).
Let candidates := _remote_servers p.

Lemma save_console_range :
  console_end_port_range new_settings <= console_start_port_range new_settings ->
  savePreferences w p sv =
    (sv, [Report (InvalidConsoleRange (console_start_port_range new_settings)
                                      (console_end_port_range new_settings))]).
Proof.
  intros H. unfold savePreferences. fold new_settings.
  destruct (Z.leb_spec (console_end_port_range new_settings)
                       (console_start_port_range new_settings)); [reflexivity | lia].
Qed.

Lemma save_udp_range :
  console_start_port_range new_settings < console_end_port_range new_settings ->
  udp_end_port_range new_settings <= udp_start_port_range new_settings ->
  savePreferences w p sv =
    (sv, [Report (InvalidUDPRange (udp_start_port_range new_settings)
                                  (udp_end_port_range new_settings))]).
Proof.
  intros Hc Hu. unfold savePreferences. fold new_settings.
  destruct (Z.leb_spec (console_end_port_range new_settings)
                       (console_start_port_range new_settings)); [lia |].
  destruct (Z.leb_spec (udp_end_port_range new_settings)
                       (udp_start_port_range new_settings)); [reflexivity | lia].
Qed.

(** Past the two range checks the slot is the [auto_start] statement
    followed by the writes. *)
Lemma save_ranges_valid :
  ranges_valid new_settings ->
  savePreferences w p sv =
    let checked : list call + servers * list call * bool :=
      if auto_start new_settings then
        if negb (isfile w (path new_settings)) then
          inl [Report (CouldNotFind (path new_settings))]
        else if local_settings_eq_dec new_settings (localServerSettings sv) then
          inr (sv, not_executable_report w new_settings, false)
        else
          match local_nodes_of w with
          | [] => inr (sv, not_executable_report w new_settings, true)
          | local_nodes =>
              inl (not_executable_report w new_settings
                     ++ [Report (NodesOnLocalServer local_nodes)])
          end
      else inr (sv_stopLocalServer sv, [stopLocalServer true], false) in
    match checked with
    | inl calls => (sv, calls)
    | inr (sv1, calls, restart_local_server) =>
        if restart_local_server then
          (sv_startLocalServer (start_succeeds w)
             (sv_stopLocalServer (written new_settings candidates sv1)),
           (calls ++ writes new_settings candidates)
             ++ [stopLocalServer true; startLocalServer;
                 if start_succeeds w
                 then WaitForConnection (host new_settings) (port new_settings)
                 else Report (CouldNotStart (path new_settings))])
        else (written new_settings candidates sv1,
              calls ++ writes new_settings candidates)
    end.
Proof.
  intros [Hc Hu]. unfold savePreferences. fold new_settings. fold candidates.
  destruct (Z.leb_spec (console_end_port_range new_settings)
                       (console_start_port_range new_settings)); [lia |].
  destruct (Z.leb_spec (udp_end_port_range new_settings)
                       (udp_start_port_range new_settings)); [lia |].
  unfold not_executable_report, written, writes.
  destruct (auto_start new_settings); [| reflexivity].
  destruct (negb (isfile w (path new_settings))); [reflexivity |].
  destruct (local_settings_eq_dec new_settings (localServerSettings sv)).
  - reflexivity.
  - destruct (local_nodes_of w); [| reflexivity].
    cbv zeta. destruct (start_succeeds w); reflexivity.
Qed.

Lemma save_path_not_found :
  ranges_valid new_settings ->
  auto_start new_settings = true ->
  isfile w (path new_settings) = false ->
  savePreferences w p sv = (sv, [Report (CouldNotFind (path new_settings))]).
Proof.
  intros Hr Ha Hf. rewrite (save_ranges_valid Hr). rewrite Ha, Hf. reflexivity.
Qed.

Lemma save_server_in_use :
  ranges_valid new_settings ->
  auto_start new_settings = true ->
  isfile w (path new_settings) = true ->
  new_settings <> localServerSettings sv ->
  local_nodes_of w <> [] ->
  savePreferences w p sv =
    (sv, not_executable_report w new_settings
           ++ [Report (NodesOnLocalServer (local_nodes_of w))]).
Proof.
  intros Hr Ha Hf Hne Hn. rewrite (save_ranges_valid Hr). rewrite Ha, Hf.
  cbn [negb].
  destruct (local_settings_eq_dec new_settings (localServerSettings sv)); [tauto |].
  destruct (local_nodes_of w); [tauto | reflexivity].
Qed.

Lemma save_unchanged :
  ranges_valid new_settings ->
  auto_start new_settings = true ->
  isfile w (path new_settings) = true ->
  new_settings = localServerSettings sv ->
  savePreferences w p sv =
    (written new_settings candidates sv,
     not_executable_report w new_settings ++ writes new_settings candidates).
Proof.
  intros Hr Ha Hf He. rewrite (save_ranges_valid Hr). rewrite Ha, Hf.
  cbn [negb].
  destruct (local_settings_eq_dec new_settings (localServerSettings sv)); [| tauto].
  reflexivity.
Qed.

Lemma save_restart :
  ranges_valid new_settings ->
  auto_start new_settings = true ->
  isfile w (path new_settings) = true ->
  new_settings <> localServerSettings sv ->
  local_nodes_of w = [] ->
  savePreferences w p sv =
    (sv_startLocalServer (start_succeeds w)
       (sv_stopLocalServer (written new_settings candidates sv)),
     (not_executable_report w new_settings ++ writes new_settings candidates)
       ++ [stopLocalServer true; startLocalServer;
           if start_succeeds w
           then WaitForConnection (host new_settings) (port new_settings)
           else Report (CouldNotStart (path new_settings))]).
Proof.
  intros Hr Ha Hf Hne Hn. rewrite (save_ranges_valid Hr). rewrite Ha, Hf, Hn.
  cbn [negb].
  destruct (local_settings_eq_dec new_settings (localServerSettings sv)); [tauto |].
  reflexivity.
Qed.

Lemma save_auto_start_off :
  ranges_valid new_settings ->
  auto_start new_settings = false ->
  savePreferences w p sv =
    (written new_settings candidates (sv_stopLocalServer sv),
     stopLocalServer true :: writes new_settings candidates).
Proof.
  intros Hr Ha. rewrite (save_ranges_valid Hr). rewrite Ha. reflexivity.
Qed.

End SavePaths.

(** [savePreferences] takes exactly one of these paths. *)
Lemma savePreferences_path (w : world) (p : page) (sv : servers) :
  save_path w p sv (savePreferences w p sv).
Proof.
  set (s := new_settings_of (localServerSettings sv) (local_widgets p)).
  destruct (Z_le_gt_dec (console_end_port_range s) (console_start_port_range s)) as [Hc | Hc].
  { rewrite save_console_range by exact Hc. now apply path_console_range. }
  destruct (Z_le_gt_dec (udp_end_port_range s) (udp_start_port_range s)) as [Hu | Hu].
  { rewrite save_udp_range by (fold s; lia). apply path_udp_range; fold s; lia. }
  assert (Hr : ranges_valid s) by (split; lia).
  destruct (auto_start s) eqn:Ha.
  - destruct (isfile w (path s)) eqn:Hf.
    + destruct (local_settings_eq_dec s (localServerSettings sv)) as [He | He].
      * rewrite save_unchanged by assumption. now apply path_unchanged.
      * destruct (local_nodes_of w) eqn:Hn.
        -- rewrite save_restart by assumption. now apply path_restart.
        -- rewrite save_server_in_use by (try assumption; rewrite Hn; discriminate).
           apply path_in_use; try assumption. rewrite Hn. discriminate.
    + rewrite save_path_not_found by assumption. now apply path_not_found.
  - rewrite save_auto_start_off by assumption. now apply path_auto_start_off.
Qed.

Lemma not_executable_report_reports (w : world) (s : local_settings) :
  forallb is_report (not_executable_report w s) = true.
Proof. unfold not_executable_report. now destruct (negb _). Qed.


(** ** Claims about [savePreferences] *)

(** C5.  [savePreferences] checks the console port range first and the UDP
    port range second; when either has end <= start it reports
    InvalidRange and stops with the service untouched and no other call,
    and when both are invalid the console range is the one reported. *)
Theorem save_invalid_range_aborts (w : world) (p : page) (sv : servers) :
  let s := new_settings_of (localServerSettings sv) (local_widgets p) in
  console_end_port_range s <= console_start_port_range s
  \/ udp_end_port_range s <= udp_start_port_range s ->
  exists d,
    savePreferences w p sv = (sv, [Report d])
    /\ error_of d = InvalidRange
    /\ (console_end_port_range s <= console_start_port_range s ->
        d = InvalidConsoleRange (console_start_port_range s) (console_end_port_range s))
    /\ (console_start_port_range s < console_end_port_range s ->
        d = InvalidUDPRange (udp_start_port_range s) (udp_end_port_range s)).
Proof.
  intros s H.
  destruct (Z_le_gt_dec (console_end_port_range s) (console_start_port_range s)) as [Hc | Hc].
  - eexists. split; [apply save_console_range; exact Hc |].
    split; [reflexivity |]. split; [reflexivity | lia].
  - eexists. split; [apply save_udp_range; fold s; lia |].
    split; [reflexivity |]. split; [lia | reflexivity].
Qed.

(** C6, amended.  With auto_start enabled and a path that is not an
    existing regular file, [savePreferences] leaves the service untouched
    and makes no call but dialogs; when both port ranges are valid the
    dialog is ServerPathNotFound. *)
Theorem save_missing_path_no_writes (w : world) (p : page) (sv : servers) :
  let s := new_settings_of (localServerSettings sv) (local_widgets p) in
  auto_start s = true ->
  isfile w (path s) = false ->
  fst (savePreferences w p sv) = sv
  /\ forallb is_report (snd (savePreferences w p sv)) = true
  /\ (ranges_valid s ->
      snd (savePreferences w p sv) = [Report (CouldNotFind (path s))]).
Proof.
  intros s Ha Hf.
  assert (Hv : ranges_valid s -> snd (savePreferences w p sv) = [Report (CouldNotFind (path s))]).
  { intros Hr. unfold s. now rewrite save_path_not_found. }
  destruct (savePreferences_path w p sv) as [| | | | | |]; cbn [fst snd];
    try (subst s; subst s0; congruence);
    (split; [reflexivity | split; [reflexivity | exact Hv]]).
Qed.

(** C2, amended.  With auto_start enabled, settings that differ from the
    current ones and a node on the local server, [savePreferences] leaves
    the service untouched and makes no call but dialogs (no write, no
    stop, no start); when both port ranges are valid and the path is an
    existing regular file, the last dialog is ServerInUse with the names
    of the local nodes. *)
Theorem save_server_in_use_no_writes (w : world) (p : page) (sv : servers) :
  let s := new_settings_of (localServerSettings sv) (local_widgets p) in
  auto_start s = true ->
  s <> localServerSettings sv ->
  local_nodes_of w <> [] ->
  fst (savePreferences w p sv) = sv
  /\ forallb is_report (snd (savePreferences w p sv)) = true
  /\ (ranges_valid s -> isfile w (path s) = true ->
      snd (savePreferences w p sv) =
        not_executable_report w s ++ [Report (NodesOnLocalServer (local_nodes_of w))]).
Proof.
  intros s Ha Hne Hn.
  assert (Hv : ranges_valid s -> isfile w (path s) = true ->
               snd (savePreferences w p sv) =
               not_executable_report w s ++ [Report (NodesOnLocalServer (local_nodes_of w))]).
  { intros Hr Hf. unfold s. now rewrite save_server_in_use. }
  destruct (savePreferences_path w p sv) as [| | | | | |]; cbn [fst snd];
    try (subst s; subst s0; congruence);
    (split; [reflexivity | split; [| exact Hv]]);
    try reflexivity.
  now rewrite forallb_app, not_executable_report_reports.
Qed.

(** C8, amended.  When the settings built from the form equal the current
    ones, [savePreferences] never starts the local server and never
    waits for a connection; and when the validations pass (both ranges
    valid and, with auto_start on, the path an existing regular file) it
    makes the three writes. *)
Theorem save_unchanged_writes_without_restart (w : world) (p : page) (sv : servers) :
  let s := new_settings_of (localServerSettings sv) (local_widgets p) in
  s = localServerSettings sv ->
  existsb is_restart (snd (savePreferences w p sv)) = false
  /\ (ranges_valid s ->
      (auto_start s = true -> isfile w (path s) = true) ->
      exists before,
        snd (savePreferences w p sv) = before ++ writes s (_remote_servers p)
        /\ existsb is_write before = false
        /\ localServerSettings (fst (savePreferences w p sv)) = s
        /\ remoteServers (fst (savePreferences w p sv)) = _remote_servers p
        /\ stored (fst (savePreferences w p sv)) = (s, _remote_servers p)).
Proof.
  intros s He. split.
  - destruct (savePreferences_path w p sv) as [| | | | | |]; cbn [fst snd];
      try (subst s; subst s0; congruence); try reflexivity;
      rewrite existsb_app; unfold not_executable_report;
      destruct (negb (access_X_OK w (path s0))); reflexivity.
  - intros Hr Hf. destruct (auto_start s) eqn:Ha.
    + unfold s. rewrite save_unchanged by (try assumption; now apply Hf).
      exists (not_executable_report w s). cbn [fst snd]. fold s.
      repeat split. unfold not_executable_report.
      now destruct (negb (access_X_OK w (path s))).
    + unfold s. rewrite save_auto_start_off by assumption.
      exists [stopLocalServer true]. cbn [fst snd]. fold s. repeat split.
Qed.

(** C10, amended.  With auto_start disabled in the form, whatever
    auto_start is in the current settings: no write is made unless
    [stopLocalServer] with [wait=True] came before it, and when the two
    range checks pass the slot makes exactly the blocking stop followed
    by the three writes. *)
Theorem save_auto_start_off_stops_first (w : world) (p : page) (sv : servers) :
  let s := new_settings_of (localServerSettings sv) (local_widgets p) in
  auto_start s = false ->
  (forall before c after,
      snd (savePreferences w p sv) = before ++ c :: after ->
      is_write c = true -> In (stopLocalServer true) before)
  /\ (ranges_valid s ->
      savePreferences w p sv =
        (written s (_remote_servers p) (sv_stopLocalServer sv),
         stopLocalServer true :: writes s (_remote_servers p))).
Proof.
  intros s Ha. split.
  - intros before c after Hs Hw.
    destruct (savePreferences_path w p sv) as [| | | | | |]; cbn [fst snd] in Hs;
      try (subst s; subst s0; congruence).
    + destruct before as [| x [| y before]]; cbn in Hs; inversion Hs; subst;
        discriminate.
    + destruct before as [| x [| y before]]; cbn in Hs; inversion Hs; subst;
        discriminate.
    + destruct before as [| x before]; cbn in Hs; inversion Hs; subst.
      * discriminate.
      * now left.
  - intros Hr. now apply save_auto_start_off.
Qed.


(** *** Witnesses and counterexamples for [savePreferences] *)
Lemma save_invalid_range_aborts_witness :
  let w := Sample.world_with true [] true in
  let sv := Sample.service SaveSamples.good in
  exists d,
    savePreferences w SaveSamples.bad_ranges_page sv = (sv, [Report d])
    /\ error_of d = InvalidRange
    /\ (2000 <= 3000 -> d = InvalidConsoleRange 3000 2000)
    /\ (3000 < 2000 -> d = InvalidUDPRange 20000 10000).
Proof.
  intros w sv.
  apply (save_invalid_range_aborts w SaveSamples.bad_ranges_page sv).
  left. vm_compute. discriminate.
Defined.

(** C6 as stated fails: auto_start is on and the path is not a file, yet
    the console range 2000..2000 is reported, not the missing path. *)
Lemma save_missing_path_reports_range :
  let w := Sample.world_with true [] true in
  let sv := Sample.service SaveSamples.good in
  let s := new_settings_of (localServerSettings sv)
             (local_widgets SaveSamples.missing_bad_range_page) in
  auto_start s = true
  /\ isfile w (path s) = false
  /\ savePreferences w SaveSamples.missing_bad_range_page sv
     = (sv, [Report (InvalidConsoleRange 2000 2000)])
  /\ errors_of (snd (savePreferences w SaveSamples.missing_bad_range_page sv))
     <> [ServerPathNotFound].
Proof. vm_compute. repeat split; discriminate. Qed.

Lemma save_missing_path_no_writes_witness :
  let w := Sample.world_with true [] true in
  let sv := Sample.service SaveSamples.good in
  fst (savePreferences w SaveSamples.missing_page sv) = sv
  /\ forallb is_report (snd (savePreferences w SaveSamples.missing_page sv)) = true
  /\ (ranges_valid SaveSamples.missing ->
      snd (savePreferences w SaveSamples.missing_page sv)
      = [Report (CouldNotFind (py "/opt/missing"))]).
Proof.
  intros w sv.
  apply (save_missing_path_no_writes w SaveSamples.missing_page sv); reflexivity.
Defined.

(** C2 as stated fails: auto_start is on, the form differs from the current
    settings and R1 runs on the local server, yet the dialog is the
    missing path, not ServerInUse. *)
Lemma save_in_use_reports_missing_path :
  let w := Sample.world_with true [Sample.R1] true in
  let sv := Sample.service SaveSamples.good in
  let s := new_settings_of (localServerSettings sv)
             (local_widgets SaveSamples.missing_page) in
  auto_start s = true
  /\ s <> localServerSettings sv
  /\ local_nodes_of w = [py "R1"]
  /\ savePreferences w SaveSamples.missing_page sv
     = (sv, [Report (CouldNotFind (py "/opt/missing"))])
  /\ ~ In ServerInUse (errors_of (snd (savePreferences w SaveSamples.missing_page sv))).
Proof.
  vm_compute. repeat split; try discriminate.
  intros [H | []]. discriminate H.
Qed.

Lemma save_server_in_use_no_writes_witness :
  let w := Sample.world_with true [Sample.R1; Sample.SW1] true in
  let sv := Sample.service SaveSamples.good in
  fst (savePreferences w SaveSamples.changed_page sv) = sv
  /\ forallb is_report (snd (savePreferences w SaveSamples.changed_page sv)) = true
  /\ (ranges_valid SaveSamples.changed ->
      isfile w (py "/usr/bin/gns3server") = true ->
      snd (savePreferences w SaveSamples.changed_page sv)
      = not_executable_report w SaveSamples.changed
          ++ [Report (NodesOnLocalServer (local_nodes_of w))]).
Proof.
  intros w sv.
  apply (save_server_in_use_no_writes w SaveSamples.changed_page sv);
    [reflexivity | vm_compute; discriminate | vm_compute; discriminate].
Defined.

(** C8 as stated fails: the form equals the current settings, auto_start
    included, but the path is not a file: the slot stops on the dialog and
    writes nothing. *)
Lemma save_unchanged_missing_path_writes_nothing :
  let w := Sample.world_with true [] true in
  let sv := Sample.service SaveSamples.missing in
  new_settings_of (localServerSettings sv) (local_widgets SaveSamples.missing_page)
  = localServerSettings sv
  /\ savePreferences w SaveSamples.missing_page sv
     = (sv, [Report (CouldNotFind (py "/opt/missing"))])
  /\ existsb is_write (snd (savePreferences w SaveSamples.missing_page sv)) = false.
Proof. vm_compute. repeat split. Qed.

Lemma save_unchanged_writes_without_restart_witness :
  let w := Sample.world_with true [Sample.R1] true in
  let sv := Sample.service SaveSamples.good in
  let r := savePreferences w SaveSamples.unchanged_page sv in
  existsb is_restart (snd r) = false
  /\ (ranges_valid SaveSamples.good ->
      (true = true -> isfile w (py "/usr/bin/gns3server") = true) ->
      exists before,
        snd r = before ++ writes SaveSamples.good Sample.one_server
        /\ existsb is_write before = false
        /\ localServerSettings (fst r) = SaveSamples.good
        /\ remoteServers (fst r) = Sample.one_server
        /\ stored (fst r) = (SaveSamples.good, Sample.one_server)).
Proof.
  intros w sv r.
  apply (save_unchanged_writes_without_restart w SaveSamples.unchanged_page sv).
  reflexivity.
Defined.

Lemma save_auto_start_off_stops_first_witness :
  let w := Sample.world_with true [Sample.R1] true in
  let sv := Sample.service SaveSamples.off in
  auto_start (localServerSettings sv) = false
  /\ (forall before c after,
        snd (savePreferences w SaveSamples.off_page sv) = before ++ c :: after ->
        is_write c = true -> In (stopLocalServer true) before)
  /\ (ranges_valid SaveSamples.off ->
      savePreferences w SaveSamples.off_page sv =
        (written SaveSamples.off Sample.one_server (sv_stopLocalServer sv),
         stopLocalServer true :: writes SaveSamples.off Sample.one_server)).
Proof.
  intros w sv. split; [reflexivity |].
  apply (save_auto_start_off_stops_first w SaveSamples.off_page sv).
  reflexivity.
Defined.

(** C10 as stated fails: auto_start is unchecked, in the form and in the
    current settings, and the console range is 3000..2000: the slot
    returns after the dialog and the local server is not stopped. *)
Lemma save_auto_start_off_bad_range_no_stop :
  let w := Sample.world_with true [] true in
  let sv := Sample.service SaveSamples.off in
  let s := new_settings_of (localServerSettings sv)
             (local_widgets SaveSamples.off_bad_range_page) in
  auto_start s = false
  /\ savePreferences w SaveSamples.off_bad_range_page sv
     = (sv, [Report (InvalidConsoleRange 3000 2000)])
  /\ existsb (fun c => match c with stopLocalServer _ => true | _ => false end)
             (snd (savePreferences w SaveSamples.off_bad_range_page sv)) = false.
Proof. vm_compute. repeat split. Qed.


(** ** Lists, [strip] and the host pattern *)

Lemma takeWhile_dropWhile {A} (f : A -> bool) (l : list A) :
  takeWhile f l ++ dropWhile f l = l.
Proof.
  induction l as [| x l IH]; [reflexivity |]. cbn.
  destruct (f x); [cbn; now rewrite IH | reflexivity].
Qed.

Lemma takeWhile_all {A} (f : A -> bool) (l : list A) :
  forallb f (takeWhile f l) = true.
Proof.
  induction l as [| x l IH]; [reflexivity |]. cbn.
  destruct (f x) eqn:E; [cbn; now rewrite E | reflexivity].
Qed.

Lemma dropWhile_head {A} (f : A -> bool) (l : list A) (x : A) (t : list A) :
  dropWhile f l = x :: t -> f x = false.
Proof.
  induction l as [| y l IH]; [discriminate |]. cbn.
  destruct (f y) eqn:E; [exact IH |]. intros H. now inversion H; subst.
Qed.

Lemma dropWhile_nil {A} (f : A -> bool) (l : list A) :
  dropWhile f l = [] <-> forallb f l = true.
Proof.
  induction l as [| y l IH]; [easy |]. cbn.
  destruct (f y); [exact IH | easy].
Qed.

(** What [strip] returns does not end with white space. *)
Lemma strip_last (s before : pystr) (c : N) :
  strip s = before ++ [c] -> isspace c = false.
Proof.
  unfold strip, rstrip. intros H.
  destruct (dropWhile isspace (rev (lstrip s))) as [| x t] eqn:E.
  - now destruct before.
  - cbn in H. apply app_inj_tail in H as [_ <-]. exact (dropWhile_head _ _ _ _ E).
Qed.

(** [re.match] accepts a string made of class characters, alone or
    followed by one final newline. *)
Lemma host_re_match_spec (host : pystr) :
  host_re_match host = true <->
  exists run, run <> [] /\ forallb host_char run = true
              /\ (host = run \/ host = run ++ [10%N]).
Proof.
  unfold host_re_match.
  pose proof (takeWhile_dropWhile host_char host) as Hsplit.
  pose proof (takeWhile_all host_char host) as Hall.
  destruct (takeWhile host_char host) as [| a run] eqn:Et.
  - split; [discriminate |]. intros (r & Hne & Hr & Hh).
    destruct r as [| b r]; [contradiction |]. cbn in Hr.
    apply andb_prop in Hr as [Hb _].
    destruct Hh as [-> | ->]; cbn in Et; now rewrite Hb in Et.
  - destruct (dropWhile host_char host) as [| c [| c' rest]] eqn:Ed.
    + split; [intros _ | reflexivity].
      exists (a :: run). rewrite app_nil_r in Hsplit. now repeat split; try left.
    + split.
      * intros Hc. apply N.eqb_eq in Hc. subst c.
        exists (a :: run). now repeat split; try right.
      * intros (r & Hne & Hr & [Hh | Hh]).
        -- apply dropWhile_nil in Hr. rewrite <- Hh in Hr. now rewrite Hr in Ed.
        -- rewrite <- Hsplit in Hh. apply app_inj_tail in Hh as [_ ->]. reflexivity.
    + split; [discriminate |]. intros (r & Hne & Hr & [Hh | Hh]).
      * apply dropWhile_nil in Hr. rewrite <- Hh in Hr. now rewrite Hr in Ed.
      * exfalso. assert (Hd : dropWhile host_char host = [10%N]).
        { rewrite Hh. clear -Hr. induction r as [| b r IH]; [reflexivity |].
          cbn in *. apply andb_prop in Hr as [-> Hr]. auto. }
        now rewrite Hd in Ed.
Qed.

(** On a stripped string the pattern accepts exactly the non-empty
    strings of class characters. *)
Lemma host_re_match_strip (text : pystr) :
  host_re_match (strip text) = true <->
  strip text <> [] /\ forallb host_char (strip text) = true.
Proof.
  rewrite host_re_match_spec. split.
  - intros (run & Hne & Hall & [H | H]).
    + now rewrite H.
    + apply strip_last in H. discriminate H.
  - intros [Hne Hall]. exists (strip text). auto.
Qed.

(** ** [_remoteServerAddSlot], check by check *)

Lemma add_slot_eq (uuid4 : N) (p : page) :
  _remoteServerAddSlot uuid4 p =
    match add_failure p with
    | Some d => (p, [Report d])
    | None => (added uuid4 p, [])
    end.
Proof.
  unfold _remoteServerAddSlot, add_failure, added, form_settings,
    form_protocol, form_host, form_port, form_user, form_ssh_port, form_ssh_key.
  repeat match goal with
         | |- context [if ?c then _ else _] => destruct c; try reflexivity
         end.
Qed.

Lemma pystr_eqb_eq (a b : pystr) : pystr_eqb a b = true <-> a = b.
Proof. unfold pystr_eqb. destruct (pystr_eq_dec a b); split; congruence. Qed.

Lemma length_zero_nil (s : pystr) : Nat.eqb (List.length s) 0 = true <-> s = [].
Proof. destruct s; cbn; split; congruence. Qed.

Lemma same_server_quadruple (protocol host : pystr) (port : Z) (user : pystr)
    (server : remote_settings) :
  same_server protocol host port user server = true <->
  quadruple server = (protocol, host, port, user).
Proof.
  unfold same_server, quadruple.
  rewrite !andb_true_iff, !pystr_eqb_eq, Z.eqb_eq.
  split; [intros [[[-> ->] ->] ->]; reflexivity | intros H; inversion H; auto].
Qed.

Lemma add_success (uuid4 : N) (p : page) :
  snd (_remoteServerAddSlot uuid4 p) = [] <-> add_failure p = None.
Proof.
  rewrite add_slot_eq. destruct (add_failure p); cbn; split; congruence.
Qed.

(** ** Claims about [_remoteServerAddSlot] *)

(** C9, amended.  The stripped host is accepted by the pattern exactly when
    it is non-empty and made of class characters, and the slot stops on
    InvalidHost exactly when it is not; once the host is accepted, the
    slot stops on InvalidPort exactly when the port is less than 1. *)
Theorem add_host_and_port_checks (uuid4 : N) (p : page) :
  let accepted := form_host p <> [] /\ forallb host_char (form_host p) = true in
  (host_re_match (form_host p) = true <-> accepted)
  /\ (errors_of (snd (_remoteServerAddSlot uuid4 p)) = [InvalidHost] <-> ~ accepted)
  /\ (accepted ->
      (errors_of (snd (_remoteServerAddSlot uuid4 p)) = [InvalidPort]
       <-> form_port p < 1)).
Proof.
  intros accepted.
  assert (Hacc : host_re_match (form_host p) = true <-> accepted)
    by apply host_re_match_strip.
  split; [exact Hacc |].
  rewrite add_slot_eq. unfold add_failure.
  destruct (host_re_match (form_host p)) eqn:Hm; cbn [negb].
  - assert (Ha : accepted) by now apply Hacc.
    destruct (Z.ltb_spec (form_port p) 1) as [Hp | Hp].
    + cbn. split; [split; [discriminate | tauto] |]. intros _. split; [auto | reflexivity].
    + repeat match goal with
             | |- context [if ?c then _ else _] => destruct c
             end; cbn;
        (split; [split; [discriminate | tauto] |]);
        intros _; (split; [discriminate | lia]).
  - assert (Ha : ~ accepted) by (intros Ha; apply Hacc in Ha; discriminate).
    cbn. split; [split; auto | tauto].
Qed.

Lemma add_host_and_port_checks_witness :
  let p := AddSamples.http_lab2 in
  let accepted := form_host p <> [] /\ forallb host_char (form_host p) = true in
  form_host p = py "lab2"
  /\ (host_re_match (form_host p) = true <-> accepted)
  /\ (errors_of (snd (_remoteServerAddSlot 7 p)) = [InvalidHost] <-> ~ accepted)
  /\ (accepted ->
      (errors_of (snd (_remoteServerAddSlot 7 p)) = [InvalidPort] <-> form_port p < 1)).
Proof.
  intros p accepted. split; [reflexivity |].
  apply (add_host_and_port_checks 7 AddSamples.http_lab2).
Defined.

(** C9 as stated fails: the port is 0, yet the slot stops on the empty
    host, not on the port. *)
Lemma add_port_0_reports_host :
  form_port AddSamples.empty_host_port_0 < 1
  /\ _remoteServerAddSlot 7 AddSamples.empty_host_port_0
     = (AddSamples.empty_host_port_0, [Report (InvalidHostname [])])
  /\ errors_of (snd (_remoteServerAddSlot 7 AddSamples.empty_host_port_0))
     <> [InvalidPort].
Proof. vm_compute. repeat split; discriminate. Qed.

(** C4, amended.  With protocol ssh and an empty stripped user or an empty
    stripped key, the slot leaves the whole page as it was (candidate
    dictionary, display list and port field included); when the host and
    port checks pass, its dialog is MissingCredential. *)
Theorem add_missing_credential (uuid4 : N) (p : page) :
  form_protocol p = py "ssh" ->
  form_user p = [] \/ form_ssh_key p = [] ->
  fst (_remoteServerAddSlot uuid4 p) = p
  /\ (host_re_match (form_host p) = true -> 1 <= form_port p ->
      exists d, snd (_remoteServerAddSlot uuid4 p) = [Report d]
                /\ error_of d = MissingCredential).
Proof.
  intros Hs Hc. rewrite add_slot_eq. unfold add_failure. rewrite Hs.
  replace (pystr_eqb (py "ssh") (py "ssh")) with true by reflexivity. cbn [andb].
  destruct (host_re_match (form_host p)); cbn [negb].
  2: { split; [reflexivity | discriminate]. }
  destruct (Z.ltb_spec (form_port p) 1) as [Hp | Hp].
  { split; [reflexivity | lia]. }
  destruct (Nat.eqb (List.length (form_user p)) 0) eqn:Hu.
  { split; [reflexivity |]. intros _ _. now exists MissingUserLogin. }
  destruct (Nat.eqb (List.length (form_ssh_key p)) 0) eqn:Hk.
  { split; [reflexivity |]. intros _ _. now exists MissingSSHKey. }
  exfalso. destruct Hc as [Hc | Hc]; rewrite Hc in *; discriminate.
Qed.

Lemma add_missing_credential_witness :
  form_user AddSamples.ssh_no_user = []
  /\ fst (_remoteServerAddSlot 7 AddSamples.ssh_no_user) = AddSamples.ssh_no_user
  /\ (host_re_match (py "lab2") = true -> 1 <= 8001 ->
      exists d, snd (_remoteServerAddSlot 7 AddSamples.ssh_no_user) = [Report d]
                /\ error_of d = MissingCredential).
Proof.
  split; [reflexivity |].
  apply (add_missing_credential 7 AddSamples.ssh_no_user);
    [reflexivity | left; reflexivity].
Defined.

(** C4 as stated fails: protocol ssh and no user, yet the slot stops on
    the host, which has a space and an underscore. *)
Lemma add_no_user_reports_host :
  form_protocol AddSamples.ssh_no_user_bad_host = py "ssh"
  /\ form_user AddSamples.ssh_no_user_bad_host = []
  /\ _remoteServerAddSlot 7 AddSamples.ssh_no_user_bad_host
     = (AddSamples.ssh_no_user_bad_host, [Report (InvalidHostname (py "my_lab 2"))])
  /\ errors_of (snd (_remoteServerAddSlot 7 AddSamples.ssh_no_user_bad_host))
     <> [MissingCredential].
Proof. vm_compute. repeat split; discriminate. Qed.

(** ** Dictionary lemmas *)
Module DictFacts.
Section WithValue.
Context {V : Type}.
Implicit Types (d : Dict.t V) (k : server_id) (v : V).

Lemma get_set_same k v d : Dict.get k (Dict.set k v d) = Some v.
Proof.
  induction d as [| [k' v'] d IH]; cbn.
  - now destruct (server_id_eq_dec k k).
  - destruct (server_id_eq_dec k k') as [E | E]; cbn.
    + now rewrite E; destruct (server_id_eq_dec k' k').
    + now destruct (server_id_eq_dec k k').
Qed.


Lemma get_None k d : Dict.get k d = None <-> ~ In k (Dict.keys d).
Proof.
  induction d as [| [k' v'] d IH]; cbn; [tauto |].
  destruct (server_id_eq_dec k k') as [E | E].
  - split; [discriminate | intros H; exfalso; apply H; now left].
  - rewrite IH. split; [intros H [H1 | H1]; [congruence | tauto] | tauto].
Qed.

(** Assigning to a key that is not in the dictionary appends the entry. *)
Lemma set_fresh k v d : Dict.get k d = None -> Dict.set k v d = d ++ [(k, v)].
Proof.
  induction d as [| [k' v'] d IH]; cbn; [reflexivity |].
  destruct (server_id_eq_dec k k'); [discriminate |].
  intros H. now rewrite IH.
Qed.

Lemma keys_set k v d :
  Dict.keys (Dict.set k v d)
  = if Dict.mem k d then Dict.keys d else Dict.keys d ++ [k].
Proof.
  unfold Dict.mem, Dict.keys. induction d as [| [k' v'] d IH]; cbn; [reflexivity |].
  destruct (server_id_eq_dec k k'); cbn; [reflexivity |].
  rewrite IH. now destruct (Dict.get k d).
Qed.

Lemma keys_set_NoDup k v d :
  NoDup (Dict.keys d) -> NoDup (Dict.keys (Dict.set k v d)).
Proof.
  intros H. rewrite keys_set. unfold Dict.mem.
  destruct (Dict.get k d) eqn:E; [exact H |].
  apply get_None in E. apply NoDup_app; [exact H | repeat constructor; easy |].
  intros x Hx [<- | []]. contradiction.
Qed.

Lemma In_values_set k v d x :
  In x (Dict.values (Dict.set k v d)) -> x = v \/ In x (Dict.values d).
Proof.
  induction d as [| [k' v'] d IH]; cbn; [intuition |].
  destruct (server_id_eq_dec k k'); cbn; intuition.
Qed.

(** Assigning a value whose image under [f] is new keeps the images of
    the values distinct, whether or not the key was present. *)
Lemma values_set_NoDup {B} (f : V -> B) k v d :
  NoDup (List.map f (Dict.values d)) ->
  ~ In (f v) (List.map f (Dict.values d)) ->
  NoDup (List.map f (Dict.values (Dict.set k v d))).
Proof.
  induction d as [| [k' v'] d IH]; cbn; intros Hnd Hin.
  - repeat constructor. easy.
  - inversion Hnd as [| ? ? Hv' Hnd']; subst.
    destruct (server_id_eq_dec k k'); cbn.
    + constructor; tauto.
    + constructor; [| apply IH; tauto].
      intros Hc. apply in_map_iff in Hc as (x & Hfx & Hx).
      apply In_values_set in Hx as [-> | Hx].
      * apply Hin. now left.
      * apply Hv'. rewrite <- Hfx. now apply in_map.
Qed.

Lemma In_del k d x : In x (Dict.del k d) -> In x d.
Proof.
  induction d as [| [k' v'] d IH]; cbn; [tauto |].
  destruct (server_id_eq_dec k k'); cbn; intuition.
Qed.

Lemma del_NoDup {B} (g : server_id * V -> B) k d :
  NoDup (List.map g d) -> NoDup (List.map g (Dict.del k d)).
Proof.
  induction d as [| [k' v'] d IH]; cbn; intros Hnd; [constructor |].
  inversion Hnd as [| ? ? Hv' Hnd']; subst.
  destruct (server_id_eq_dec k k'); cbn; [exact Hnd' |].
  constructor; [| now apply IH].
  intros Hc. apply in_map_iff in Hc as (x & Hgx & Hx).
  apply Hv'. rewrite <- Hgx. apply in_map. now apply In_del in Hx.
Qed.

Lemma get_del_same k d :
  NoDup (Dict.keys d) -> Dict.get k (Dict.del k d) = None.
Proof.
  induction d as [| [k' v'] d IH]; cbn; intros Hnd; [reflexivity |].
  inversion Hnd as [| ? ? Hk' Hnd']; subst.
  destruct (server_id_eq_dec k k') as [E | E]; cbn.
  - subst. now apply get_None.
  - destruct (server_id_eq_dec k k'); [contradiction | now apply IH].
Qed.

End WithValue.
End DictFacts.

Lemma load_servers (l : Dict.t remote_settings) :
  forall d tree,
    NoDup (Dict.keys (d ++ l)) ->
    fst (fold_left load_server l (d, tree)) = d ++ l.
Proof.
  induction l as [| [k v] l IH]; intros d tree Hnd; cbn.
  - now rewrite app_nil_r.
  - replace (d ++ (k, v) :: l) with ((d ++ [(k, v)]) ++ l) in *
      by now rewrite <- app_assoc.
    rewrite DictFacts.set_fresh.
    + now apply IH.
    + apply DictFacts.get_None. unfold Dict.keys in *.
      rewrite !map_app in Hnd. cbn in Hnd.
      apply NoDup_app_remove_r in Hnd. apply NoDup_remove_2 in Hnd.
      now rewrite app_nil_r in Hnd.
Qed.

Lemma load_candidates (sv : servers) (p : page) :
  NoDup (Dict.keys (remoteServers sv)) ->
  _remote_servers (loadPreferences sv p) = remoteServers sv.
Proof. intros H. unfold loadPreferences. cbn. now apply (load_servers _ []). Qed.

Lemma add_unique (uuid4 : N) (p : page) :
  unique_servers (_remote_servers p) ->
  unique_servers (_remote_servers (fst (_remoteServerAddSlot uuid4 p))).
Proof.
  intros [Hk Hq]. rewrite add_slot_eq.
  destruct (add_failure p) eqn:Hf; cbn; [now split |].
  split; [now apply DictFacts.keys_set_NoDup |].
  apply DictFacts.values_set_NoDup; [exact Hq |].
  intros Hin. apply in_map_iff in Hin as (server & Hs & Hin).
  unfold add_failure in Hf.
  repeat match type of Hf with
         | (if ?c then _ else _) = _ => destruct c eqn:?; try discriminate
         end.
  assert (Hex : existsb (same_server (form_protocol p) (form_host p) (form_port p)
                                     (form_user p)) (Dict.values (_remote_servers p)) = true).
  { apply existsb_exists. exists server. split; [exact Hin |].
    now apply same_server_quadruple. }
  congruence.
Qed.

Lemma delete_unique (currentItem : option nat) (p p' : page) :
  _remoteServerDeleteSlot currentItem p = Some p' ->
  unique_servers (_remote_servers p) ->
  unique_servers (_remote_servers p').
Proof.
  unfold _remoteServerDeleteSlot. intros H [Hk Hq].
  destruct currentItem as [i |]; [| now inversion H; subst].
  destruct (nth_error (uiRemoteServersTreeWidget p) i) as [item |];
    [| now inversion H; subst].
  destruct (Dict.mem (item_server_id item) (_remote_servers p)); [| discriminate].
  inversion H; subst; cbn. split.
  - now apply (DictFacts.del_NoDup fst).
  - unfold Dict.values in *. rewrite map_map in *.
    now apply (DictFacts.del_NoDup (fun e => quadruple (snd e))).
Qed.

Lemma save_unique (w : world) (p : page) (sv : servers) :
  unique_servers (_remote_servers p) ->
  unique_servers (remoteServers sv) ->
  unique_servers (remoteServers (fst (savePreferences w p sv))).
Proof.
  intros Hp Hs. now destruct (savePreferences_path w p sv).
Qed.

(** Every action keeps the invariant. *)
Lemma run_invariant (o : operation) (st st' : state) :
  invariant st -> run o st = Some st' -> invariant st'.
Proof.
  destruct st as [p sv]. intros [Hp Hs] Hrun. unfold invariant in *.
  cbn [fst snd] in *.
  destruct o; cbn in Hrun.
  - inversion Hrun; subst; cbn. split; [now apply add_unique | exact Hs].
  - destruct (_remoteServerDeleteSlot currentItem p) as [p' |] eqn:Hd; [| discriminate].
    inversion Hrun; subst; cbn. split; [now apply (delete_unique _ _ _ Hd) | exact Hs].
  - inversion Hrun; subst; cbn [fst snd].
    rewrite load_candidates by apply Hs. now split.
  - inversion Hrun; subst; cbn. split; [exact Hp | now apply save_unique].
  - inversion Hrun; subst; cbn. now split.
  - inversion Hrun; subst; cbn. now split.
Qed.

Lemma run_all_invariant (ops : list operation) :
  forall st st', invariant st -> run_all ops st = Some st' -> invariant st'.
Proof.
  induction ops as [| o ops IH]; cbn; intros st st' Hinv Hrun.
  - now inversion Hrun; subst.
  - destruct (run o st) as [st1 |] eqn:H1; [| discriminate].
    eapply IH; [| exact Hrun]. eapply run_invariant; eassumption.
Qed.

(** C3, amended.  From a state in which neither the candidate dictionary
    nor the service's collection holds two records with the same
    (protocol, host, port, user), every sequence of actions (add, delete,
    load, save, restore defaults) leads to such a state.  An add whose
    quadruple is that of a record of the candidate dictionary leaves the
    page as it was, and its dialog is DuplicateServer when the host, port
    and credential checks pass. *)
Theorem remote_servers_stay_unique (ops : list operation) (st : state) :
  invariant st ->
  (forall st', run_all ops st = Some st' -> invariant st')
  /\ (forall uuid4 server,
        In server (Dict.values (_remote_servers (fst st))) ->
        quadruple server = quadruple (form_settings (fst st)) ->
        fst (_remoteServerAddSlot uuid4 (fst st)) = fst st
        /\ (host_re_match (form_host (fst st)) = true ->
            1 <= form_port (fst st) ->
            (form_protocol (fst st) = py "ssh" ->
             form_user (fst st) <> [] /\ form_ssh_key (fst st) <> []) ->
            snd (_remoteServerAddSlot uuid4 (fst st)) = [Report AlreadyDefined])).
Proof.
  intros Hinv. split.
  - intros st' Hrun. eapply run_all_invariant; eassumption.
  - destruct st as [p sv]. cbn [fst]. intros uuid4 server Hin Hq.
    assert (Hex : existsb (same_server (form_protocol p) (form_host p) (form_port p)
                                       (form_user p)) (Dict.values (_remote_servers p)) = true).
    { apply existsb_exists. exists server. split; [exact Hin |].
      now apply same_server_quadruple. }
    rewrite add_slot_eq. unfold add_failure. rewrite Hex.
    destruct (host_re_match (form_host p)); cbn [negb];
      [| split; [reflexivity | discriminate]].
    destruct (Z.ltb_spec (form_port p) 1); [split; [reflexivity | lia] |].
    destruct (pystr_eqb (form_protocol p) (py "ssh")) eqn:Hs; cbn [andb];
      [| split; reflexivity].
    apply pystr_eqb_eq in Hs.
    destruct (Nat.eqb (List.length (form_user p)) 0) eqn:Hu.
    { apply length_zero_nil in Hu. split; [reflexivity |].
      intros _ _ Hc. now destruct (Hc Hs). }
    destruct (Nat.eqb (List.length (form_ssh_key p)) 0) eqn:Hk.
    { apply length_zero_nil in Hk. split; [reflexivity |].
      intros _ _ Hc. now destruct (Hc Hs). }
    split; reflexivity.
Qed.

Lemma sample_invariant :
  invariant (AddSamples.same_as_r1, Sample.service SaveSamples.good).
Proof.
  repeat split; cbn; repeat constructor; cbn; tauto.
Defined.

Lemma remote_servers_stay_unique_witness :
  let st := (AddSamples.same_as_r1, Sample.service SaveSamples.good) in
  let ops := [Add 7; Delete (Some 0%nat); Load;
              Edit (local_widgets AddSamples.http_lab2) (remote_widgets AddSamples.http_lab2);
              Add 8; Save (Sample.world_with true [] true)] in
  (forall st', run_all ops st = Some st' -> invariant st')
  /\ (forall uuid4 server,
        In server (Dict.values (_remote_servers (fst st))) ->
        quadruple server = quadruple (form_settings (fst st)) ->
        fst (_remoteServerAddSlot uuid4 (fst st)) = fst st
        /\ (host_re_match (form_host (fst st)) = true ->
            1 <= form_port (fst st) ->
            (form_protocol (fst st) = py "ssh" ->
             form_user (fst st) <> [] /\ form_ssh_key (fst st) <> []) ->
            snd (_remoteServerAddSlot uuid4 (fst st)) = [Report AlreadyDefined])).
Proof.
  intros st ops. apply (remote_servers_stay_unique ops st). exact sample_invariant.
Defined.

(** C3 as stated fails: the form has the quadruple of a record of the
    candidate dictionary, yet with the key field empty the dialog is the
    missing SSH key, not DuplicateServer. *)
Lemma add_duplicate_reports_missing_key :
  In Sample.r1 (Dict.values (_remote_servers AddSamples.same_as_r1_no_key))
  /\ quadruple (form_settings AddSamples.same_as_r1_no_key) = quadruple Sample.r1
  /\ _remoteServerAddSlot 7 AddSamples.same_as_r1_no_key
     = (AddSamples.same_as_r1_no_key, [Report MissingSSHKey])
  /\ errors_of (snd (_remoteServerAddSlot 7 AddSamples.same_as_r1_no_key))
     <> [DuplicateServer].
Proof.
  split; [now left |]. vm_compute. repeat split; discriminate.
Qed.






(** ** More on [strip], [lower] and [upper] *)

Lemma dropWhile_idem {A} (f : A -> bool) (l : list A) :
  dropWhile f (dropWhile f l) = dropWhile f l.
Proof.
  induction l as [| x l IH]; [reflexivity |]. cbn.
  destruct (f x) eqn:E; [exact IH | cbn; now rewrite E].
Qed.

Lemma dropWhile_snoc {A} (f : A -> bool) (l : list A) (x : A) :
  f x = false -> dropWhile f (l ++ [x]) = dropWhile f l ++ [x].
Proof.
  intros Hx. induction l as [| y l IH]; cbn; [now rewrite Hx |].
  destruct (f y); [exact IH | reflexivity].
Qed.

Lemma rstrip_idem (s : pystr) : rstrip (rstrip s) = rstrip s.
Proof. unfold rstrip. now rewrite rev_involutive, dropWhile_idem. Qed.

(** Stripping on the right keeps a left-stripped string left-stripped. *)
Lemma lstrip_rstrip (s : pystr) : lstrip (rstrip (lstrip s)) = rstrip (lstrip s).
Proof.
  unfold rstrip, lstrip.
  destruct (dropWhile isspace s) as [| x t] eqn:E; [reflexivity |].
  pose proof (dropWhile_head _ _ _ _ E) as Hx.
  cbn [rev]. rewrite dropWhile_snoc by exact Hx.
  rewrite rev_app_distr. cbn. now rewrite Hx.
Qed.

(** [strip] of a stripped string changes nothing. *)
Lemma strip_idem (s : pystr) : strip (strip s) = strip s.
Proof.
  unfold strip at 1. rewrite (lstrip_rstrip s : lstrip (strip s) = strip s).
  apply rstrip_idem.
Qed.

Lemma lower_char_idem (c : N) : lower_char (lower_char c) = lower_char c.
Proof.
  unfold lower_char, in_range.
  destruct ((65 <=? c)%N && (c <=? 90)%N) eqn:E; [| now rewrite E].
  apply andb_prop in E as [H1 H2]. apply N.leb_le in H1, H2.
  destruct ((65 <=? c + 32)%N && (c + 32 <=? 90)%N) eqn:E2; [| reflexivity].
  apply andb_prop in E2 as [_ H4]. apply N.leb_le in H4. lia.
Qed.

Lemma lower_idem (s : pystr) : lower (lower s) = lower s.
Proof.
  unfold lower. rewrite map_map. apply map_ext. apply lower_char_idem.
Qed.

Lemma lower_upper_char (c : N) : lower_char (upper_char c) = lower_char c.
Proof.
  unfold lower_char, upper_char, in_range.
  destruct ((97 <=? c)%N && (c <=? 122)%N) eqn:E.
  - apply andb_prop in E as [H1 H2]. apply N.leb_le in H1, H2.
    replace ((65 <=? c - 32)%N && (c - 32 <=? 90)%N) with true
      by (symmetry; apply andb_true_intro; split; apply N.leb_le; lia).
    replace ((65 <=? c)%N && (c <=? 90)%N) with false
      by (symmetry; apply andb_false_intro2; apply N.leb_gt; lia).
    lia.
  - reflexivity.
Qed.

(** Lower-casing the upper-cased text gives the lower-cased text. *)
Lemma lower_upper (s : pystr) : lower (upper s) = lower s.
Proof.
  unfold lower, upper. rewrite map_map. apply map_ext. apply lower_upper_char.
Qed.

(** ** What a successful add stores *)

(** X1.  A successful add stores, under the identifier [uuid4()]
    returned, a record that passed every check: its host is non-empty and
    made of class characters, its port is at least 1, with protocol ssh
    both user and key are non-empty, and its protocol is lower-case and
    its host, user and key are stripped. *)
Theorem add_stores_checked_record (uuid4 : N) (p : page) :
  snd (_remoteServerAddSlot uuid4 p) = [] ->
  exists r,
    Dict.get (TempUuid uuid4) (_remote_servers (fst (_remoteServerAddSlot uuid4 p)))
    = Some r
    /\ r = form_settings p
    /\ r_host r <> [] /\ forallb host_char (r_host r) = true
    /\ 1 <= r_port r
    /\ (r_protocol r = py "ssh" -> r_user r <> [] /\ r_ssh_key r <> [])
    /\ normalised r.
Proof.
  intros Hok. apply add_success in Hok.
  exists (form_settings p). rewrite add_slot_eq, Hok. cbn [fst].
  unfold added. cbn [_remote_servers]. rewrite DictFacts.get_set_same.
  split; [reflexivity |]. split; [reflexivity |].
  unfold add_failure in Hok.
  destruct (host_re_match (form_host p)) eqn:Hm; [| discriminate]. cbn [negb] in Hok.
  destruct (Z.ltb_spec (form_port p) 1) as [Hp | Hp]; [discriminate |].
  apply host_re_match_strip in Hm as [Hne Hall]. cbn [form_settings r_host r_port
    r_protocol r_user r_ssh_key].
  repeat split; try assumption.
  - intros Hu. rewrite H in Hok.
    replace (pystr_eqb (py "ssh") (py "ssh")) with true in Hok by reflexivity.
    cbn [andb] in Hok. destruct (form_user p); [discriminate | discriminate].
  - intros Hk. rewrite H in Hok.
    replace (pystr_eqb (py "ssh") (py "ssh")) with true in Hok by reflexivity.
    cbn [andb] in Hok.
    destruct (Nat.eqb (List.length (form_user p)) 0); [discriminate |].
    rewrite Hk in Hok. discriminate.
  - apply lower_idem.
  - apply strip_idem.
  - apply strip_idem.
  - apply strip_idem.
Qed.

(** ** The display list mirrors the candidate dictionary *)

Lemma remove_nth_map {A B} (f : A -> B) (l : list A) :
  forall i, remove_nth i (List.map f l) = List.map f (remove_nth i l).
Proof.
  induction l as [| x l IH]; intros [| i]; cbn; try reflexivity.
  now rewrite IH.
Qed.

Lemma remove_nth_last {A} (l : list A) (x : A) :
  remove_nth (List.length l) (l ++ [x]) = l.
Proof. induction l as [| y l IH]; cbn; [reflexivity | now rewrite IH]. Qed.

(** In a dictionary, deleting the key of the entry at position [i]
    removes that entry. *)
Lemma del_nth (d : Dict.t remote_settings) :
  forall i k v,
    NoDup (Dict.keys d) -> nth_error d i = Some (k, v) ->
    Dict.del k d = remove_nth i d.
Proof.
  induction d as [| [k' v'] d IH]; intros [| i] k v Hnd Hn; cbn in *;
    try discriminate.
  - inversion Hn; subst. now destruct (server_id_eq_dec k k).
  - inversion Hnd as [| ? ? Hk' Hnd']; subst.
    destruct (server_id_eq_dec k k') as [-> | Hne].
    + exfalso. apply Hk'. apply nth_error_In in Hn.
      now apply (in_map fst) in Hn.
    + now rewrite (IH i k v).
Qed.

Lemma mem_In (d : Dict.t remote_settings) (k : server_id) :
  In k (Dict.keys d) -> Dict.mem k d = true.
Proof.
  intros H. unfold Dict.mem. destruct (Dict.get k d) eqn:E; [reflexivity |].
  now apply DictFacts.get_None in E.
Qed.

Lemma remove_nth_keys_NoDup (d : Dict.t remote_settings) :
  forall i, NoDup (Dict.keys d) -> NoDup (Dict.keys (remove_nth i d)).
Proof.
  unfold Dict.keys.
  induction d as [| [k v] d IH]; intros [| i] H; cbn in *; try constructor;
    inversion H as [| ? ? Hk Hd]; subst; auto.
  intros Hin. apply Hk. clear -Hin. revert i Hin.
  induction d as [| e d IHd]; intros [| i] Hin; cbn in *; try tauto.
  destruct Hin as [Hin | Hin]; [now left | right; eauto].
Qed.

(** The delete slot on a mirrored page. *)
Lemma delete_on_mirror (currentItem : option nat) (p : page) :
  mirrors p ->
  exists p',
    _remoteServerDeleteSlot currentItem p = Some p'
    /\ mirrors p'
    /\ local_widgets p' = local_widgets p
    /\ remote_widgets p' = remote_widgets p
    /\ match currentItem with
       | None => p' = p
       | Some i =>
           match nth_error (uiRemoteServersTreeWidget p) i with
           | None => p' = p
           | Some item =>
               _remote_servers p' = remove_nth i (_remote_servers p)
               /\ uiRemoteServersTreeWidget p' = remove_nth i (uiRemoteServersTreeWidget p)
               /\ Dict.get (item_server_id item) (_remote_servers p') = None
           end
       end.
Proof.
  intros [Hnd Hm]. unfold _remoteServerDeleteSlot.
  destruct currentItem as [i |]; [| exists p; repeat split; assumption].
  destruct (nth_error (uiRemoteServersTreeWidget p) i) as [item |] eqn:Hn;
    [| exists p; repeat split; assumption].
  rewrite Hm, nth_error_map in Hn.
  destruct (nth_error (_remote_servers p) i) as [[k v] |] eqn:Hd; [| discriminate].
  cbn in Hn. inversion Hn; subst item. clear Hn. rename Hd into Hn.
  cbn [item_of item_server_id].
  assert (Hin : In k (Dict.keys (_remote_servers p))).
  { apply nth_error_In in Hn. now apply (in_map fst) in Hn. }
  rewrite (mem_In _ _ Hin). eexists. split; [reflexivity |].
  cbn [local_widgets remote_widgets _remote_servers uiRemoteServersTreeWidget].
  rewrite (del_nth _ _ _ _ Hnd Hn).
  assert (Hnd' : NoDup (Dict.keys (remove_nth i (_remote_servers p))))
    by now apply remove_nth_keys_NoDup.
  repeat split; try assumption.
  - rewrite Hm. apply remove_nth_map.
  - rewrite <- (del_nth _ _ _ _ Hnd Hn). now apply DictFacts.get_del_same.
Qed.

(** X2.  On a page whose display list mirrors the candidate dictionary,
    the delete slot never fails its assertion; with a current item it
    removes that item and the entry of its identifier from both, so the
    identifier is no longer a key and the list still mirrors the
    dictionary; with no current item the page stays as it is. *)
Theorem delete_keeps_mirror (currentItem : option nat) (p : page) :
  mirrors p ->
  exists p',
    _remoteServerDeleteSlot currentItem p = Some p'
    /\ mirrors p'
    /\ local_widgets p' = local_widgets p
    /\ remote_widgets p' = remote_widgets p
    /\ match currentItem with
       | None => p' = p
       | Some i =>
           match nth_error (uiRemoteServersTreeWidget p) i with
           | None => p' = p
           | Some item =>
               _remote_servers p' = remove_nth i (_remote_servers p)
               /\ uiRemoteServersTreeWidget p' = remove_nth i (uiRemoteServersTreeWidget p)
               /\ Dict.get (item_server_id item) (_remote_servers p') = None
           end
       end.
Proof. apply delete_on_mirror. Qed.

(** X3.  Deleting the item that a successful add has just appended (the
    last one), when [uuid4()] returned an unused identifier, gives back
    the candidate dictionary and the display list of before the add; of
    the widgets only the port field has moved. *)
Theorem add_then_delete (uuid4 : N) (p : page) :
  snd (_remoteServerAddSlot uuid4 p) = [] ->
  Dict.get (TempUuid uuid4) (_remote_servers p) = None ->
  _remoteServerDeleteSlot (Some (List.length (uiRemoteServersTreeWidget p)))
                          (fst (_remoteServerAddSlot uuid4 p))
  = Some (Page (local_widgets p)
               (set_port_spinbox
                  (setValue (uiRemoteServerPortSpinBox (remote_widgets p))
                            (form_port p + 1))
                  (remote_widgets p))
               (uiRemoteServersTreeWidget p)
               (_remote_servers p)).
Proof.
  intros Hok Hfresh. apply add_success in Hok.
  rewrite add_slot_eq, Hok. cbn [fst]. unfold added, _remoteServerDeleteSlot.
  cbn [uiRemoteServersTreeWidget _remote_servers local_widgets remote_widgets].
  rewrite nth_error_app2 by apply Nat.le_refl.
  rewrite Nat.sub_diag. cbn [nth_error item_server_id].
  unfold Dict.mem. rewrite DictFacts.get_set_same.
  rewrite remove_nth_last. f_equal. f_equal.
  rewrite (DictFacts.set_fresh _ _ _ Hfresh).
  assert (Hgen : forall d : Dict.t remote_settings,
             Dict.get (TempUuid uuid4) d = None ->
             Dict.del (TempUuid uuid4) (d ++ [(TempUuid uuid4, form_settings p)]) = d).
  { induction d as [| [k v] d IH]; cbn [app Dict.del Dict.get].
    - intros _. now destruct (server_id_eq_dec (TempUuid uuid4) (TempUuid uuid4)).
    - destruct (server_id_eq_dec (TempUuid uuid4) k); [discriminate |].
      intros H. now rewrite IH. }
  now apply Hgen.
Qed.

Lemma load_items (l : Dict.t remote_settings) :
  forall d tree,
    snd (fold_left load_server l (d, tree)) = tree ++ List.map item_of l.
Proof.
  induction l as [| [k v] l IH]; intros d tree; cbn.
  - now rewrite app_nil_r.
  - rewrite IH. now rewrite <- app_assoc.
Qed.

(** What [loadPreferences] leaves in the dictionary and the list. *)
Lemma load_candidates_and_items (sv : servers) (p : page) :
  NoDup (Dict.keys (remoteServers sv)) ->
  _remote_servers (loadPreferences sv p) = remoteServers sv
  /\ uiRemoteServersTreeWidget (loadPreferences sv p)
     = List.map item_of (remoteServers sv)
  /\ mirrors (loadPreferences sv p)
  /\ remote_widgets (loadPreferences sv p) = remote_widgets p.
Proof.
  intros Hnd.
  assert (Hd : _remote_servers (loadPreferences sv p) = remoteServers sv)
    by now apply load_candidates.
  assert (Ht : uiRemoteServersTreeWidget (loadPreferences sv p)
               = List.map item_of (remoteServers sv)).
  { unfold loadPreferences. cbn [uiRemoteServersTreeWidget]. now rewrite load_items. }
  repeat split; try assumption.
  - now rewrite Hd.
  - now rewrite Hd, Ht.
Qed.

(** X4.  Whatever the page held, after [loadPreferences] from a service
    whose local settings hold C int numbers (so that no [setValue]
    raises before the list is cleared), the candidate dictionary is the
    collection of the service and the display list has one item per
    entry, in order: unsaved edits are gone and the list mirrors the
    dictionary. *)
Theorem load_rebuilds_candidates (sv : servers) (p : page) :
  numbers_c_int (localServerSettings sv) ->
  NoDup (Dict.keys (remoteServers sv)) ->
  _remote_servers (loadPreferences sv p) = remoteServers sv
  /\ uiRemoteServersTreeWidget (loadPreferences sv p)
     = List.map item_of (remoteServers sv)
  /\ mirrors (loadPreferences sv p)
  /\ remote_widgets (loadPreferences sv p) = remote_widgets p.
Proof. intros _. apply load_candidates_and_items. Qed.

(** X5.  From a state in which the display list mirrors the candidate
    dictionary, every action (an add whose [uuid4()] identifier is unused,
    delete, load, save, restore defaults, edit) runs without a failed
    assertion and leads to such a state again. *)
Theorem mirror_is_kept (o : operation) (st : state) :
  consistent st ->
  fresh_uuid o (fst st) ->
  exists st', run o st = Some st' /\ consistent st'.
Proof.
  destruct st as [p sv]. intros [Hm Hs] Hf. cbn [fst snd] in *.
  destruct o as [uuid4 | currentItem | | w | defaults | l r]; cbn [run].
  - eexists. split; [reflexivity |]. split; [| exact Hs]. cbn [fst snd].
    rewrite add_slot_eq. destruct (add_failure p); cbn [fst]; [exact Hm |].
    destruct Hm as [Hnd Hm]. unfold added, mirrors.
    cbn [_remote_servers uiRemoteServersTreeWidget].
    cbn in Hf. rewrite (DictFacts.set_fresh _ _ _ Hf). split.
    + rewrite <- (DictFacts.set_fresh _ _ _ Hf). now apply DictFacts.keys_set_NoDup.
    + rewrite map_app, Hm. reflexivity.
  - destruct (delete_on_mirror currentItem p Hm) as (p' & -> & Hm' & _).
    eexists. split; [reflexivity |]. now split.
  - eexists. split; [reflexivity |]. split; [| exact Hs]. cbn [fst].
    now apply load_candidates_and_items.
  - eexists. split; [reflexivity |]. split; [exact Hm |]. cbn [snd].
    destruct Hm as [Hnd _].
    now destruct (savePreferences_path w p sv).
  - eexists. split; [reflexivity |]. now split.
  - eexists. split; [reflexivity |]. now split.
Qed.

(** ** Loading, then saving *)

Lemma find_index_found {A} (f : A -> bool) (l : list A) :
  forall i, 0 <= i -> find_index f l i <> -1 ->
    i <= find_index f l i
    /\ exists x, nth_error l (Z.to_nat (find_index f l i - i)) = Some x
                 /\ f x = true.
Proof.
  induction l as [| y l IH]; intros i Hi Hf; cbn in *; [contradiction |].
  destruct (f y) eqn:E.
  - split; [lia |]. exists y. now rewrite Z.sub_diag.
  - destruct (IH (i + 1) ltac:(lia) Hf) as [Hle (x & Hx & Hfx)].
    split; [lia |]. exists x. split; [| exact Hfx].
    replace (Z.to_nat (find_index f l (i + 1) - i))
      with (S (Z.to_nat (find_index f l (i + 1) - (i + 1)))) by lia.
    exact Hx.
Qed.

(** Selecting the entry that [findData] found makes its data the current
    data. *)
Lemma itemData_findData (cb : combobox) (h : pystr) :
  findData cb h <> -1 ->
  itemData (setCurrentIndex cb (findData cb h)) (findData cb h) = Some h.
Proof.
  intros Hf. unfold findData in *.
  destruct (find_index_found _ (cb_items cb) 0 ltac:(lia) Hf)
    as [Hle ([t d] & Hx & Hd)].
  unfold itemData, cb_nth, setCurrentIndex. cbn [cb_items].
  destruct (Z.ltb_spec (find_index (fun it => pystr_eqb (snd it) h) (cb_items cb) 0) 0);
    [lia |].
  rewrite Z.sub_0_r in Hx. rewrite Hx. cbn in *.
  apply pystr_eqb_eq in Hd. now subst.
Qed.

Lemma bound_in (lo hi v : Z) : lo <= v <= hi -> bound lo hi v = v.
Proof. unfold bound. lia. Qed.

Lemma setValue_in (sb : spinbox) (v : Z) :
  in_spinbox sb v -> sb_value (setValue sb v) = v.
Proof. intros H. cbn. now apply bound_in. Qed.

Lemma setChecked_AutoStart_widgets (b : bool) (f : local_form) :
  let f' := setChecked_AutoStart b f in
  uiLocalServerPathLineEdit f' = uiLocalServerPathLineEdit f
  /\ uiLocalServerHostComboBox f' = uiLocalServerHostComboBox f
  /\ uiLocalServerPortSpinBox f' = uiLocalServerPortSpinBox f
  /\ uiLocalServerAutoStartCheckBox f' = b
  /\ uiConsoleConnectionsToAnyIPCheckBox f' = uiConsoleConnectionsToAnyIPCheckBox f
  /\ uiConsoleStartPortSpinBox f' = uiConsoleStartPortSpinBox f
  /\ uiConsoleEndPortSpinBox f' = uiConsoleEndPortSpinBox f
  /\ uiUDPStartPortSpinBox f' = uiUDPStartPortSpinBox f
  /\ uiUDPEndPortSpinBox f' = uiUDPEndPortSpinBox f.
Proof.
  unfold setChecked_AutoStart.
  destruct (Bool.eqb b (uiLocalServerAutoStartCheckBox f)); cbn; repeat split.
Qed.

(** What the form shows after [_populateWidgets] is what was loaded,
    when the form can show it. *)
Lemma populate_shows (s current : local_settings) (f : local_form) :
  showable s f ->
  new_settings_of current (_populateWidgets s f)
  = LocalSettings (path s) (host s) (port s) (auto_start s)
      (allow_console_from_anywhere s)
      (console_start_port_range s) (console_end_port_range s)
      (udp_start_port_range s) (udp_end_port_range s)
      (images_path current) (projects_path current) (report_errors current).
Proof.
  intros (Hp & Hcs & Hce & Hus & Hue & h & Hh & Hf).
  unfold new_settings_of, _populateWidgets. rewrite Hh.
  match goal with
  | |- context [setChecked_AutoStart ?b ?g] =>
      destruct (setChecked_AutoStart_widgets b g)
        as (-> & -> & -> & -> & -> & -> & -> & -> & ->)
  end.
  cbn [uiLocalServerPathLineEdit uiLocalServerHostComboBox uiLocalServerPortSpinBox
       uiConsoleConnectionsToAnyIPCheckBox uiConsoleStartPortSpinBox
       uiConsoleEndPortSpinBox uiUDPStartPortSpinBox uiUDPEndPortSpinBox].
  rewrite !setValue_in by assumption.
  destruct (Z.eqb_spec (findData (uiLocalServerHostComboBox f) h) (-1));
    [contradiction |].
  cbn [setCurrentIndex cb_index]. now rewrite itemData_findData.
Qed.

Lemma load_new_settings (sv : servers) (p : page) :
  showable (localServerSettings sv) (local_widgets p) ->
  new_settings_of (localServerSettings sv) (local_widgets (loadPreferences sv p))
  = localServerSettings sv.
Proof.
  intros H. unfold loadPreferences. cbn [local_widgets].
  rewrite populate_shows by exact H. now destruct (localServerSettings sv).
Qed.

(** X6.  When the current settings are ones the form can show (numbers
    that are C ints within the spin boxes' ranges, a path that the line
    edit keeps whole, host among the addresses of the host selector), the
    settings that [savePreferences] would build right after
    [loadPreferences] are the current settings. *)
Theorem load_shows_current_settings (sv : servers) (p : page) :
  numbers_c_int (localServerSettings sv) ->
  fits_line_edit (path (localServerSettings sv)) ->
  showable (localServerSettings sv) (local_widgets p) ->
  new_settings_of (localServerSettings sv) (local_widgets (loadPreferences sv p))
  = localServerSettings sv.
Proof. intros _ _. apply load_new_settings. Qed.

(** X7.  [savePreferences] right after [loadPreferences], with current
    settings that the form can show (C int numbers within the spin
    boxes' ranges, a path the line edit keeps whole, host among the
    addresses) and that pass the validations, never
    blocks on the nodes of the topology and never restarts the local
    server: it makes the executable report if any (auto-start on) or the
    blocking stop (auto-start off), then the three writes, and the
    collection it writes is the service's own. *)
Theorem load_then_save (w : world) (sv : servers) (p : page) :
  let s := localServerSettings sv in
  numbers_c_int s ->
  fits_line_edit (path s) ->
  showable s (local_widgets p) ->
  NoDup (Dict.keys (remoteServers sv)) ->
  ranges_valid s ->
  (auto_start s = true -> isfile w (path s) = true) ->
  snd (savePreferences w (loadPreferences sv p) sv)
  = (if auto_start s then not_executable_report w s else [stopLocalServer true])
      ++ writes s (remoteServers sv).
Proof.
  intros s _ _ Hshow Hnd Hr Hfile.
  pose proof (load_new_settings sv p Hshow) as Hnew.
  pose proof (load_candidates sv p Hnd) as Hd.
  destruct (auto_start s) eqn:Ha.
  - rewrite save_unchanged; rewrite ?Hnew; fold s; auto.
    cbn [snd]. now rewrite Hd.
  - rewrite save_auto_start_off; rewrite ?Hnew; fold s; auto.
    cbn [snd]. now rewrite Hd.
Qed.

Lemma populate_idem (s : local_settings) (f : local_form) :
  _populateWidgets s (_populateWidgets s f) = _populateWidgets s f.
Proof.
  destruct f as [pa combo po au an cs ce us ue g1 g2 g3].
  destruct s as [spa sh spo sau san scs sce sus sue si sp sr].
  unfold _populateWidgets.
  cbn [path host port auto_start allow_console_from_anywhere
       console_start_port_range console_end_port_range udp_start_port_range
       udp_end_port_range uiLocalServerPathLineEdit uiLocalServerHostComboBox
       uiLocalServerPortSpinBox uiLocalServerAutoStartCheckBox
       uiConsoleConnectionsToAnyIPCheckBox uiConsoleStartPortSpinBox
       uiConsoleEndPortSpinBox uiUDPStartPortSpinBox uiUDPEndPortSpinBox
       uiGeneralSettingsGroupBox uiConsolePortRangeGroupBox uiUDPPortRangeGroupBox].
  set (idx := match sh with Some h => findData combo h | None => -1 end).
  set (combo' := if idx =? -1 then combo else setCurrentIndex combo idx).
  assert (Hidx : forall g, cb_items g = cb_items combo ->
                   match sh with Some h => findData g h | None => -1 end = idx).
  { intros g Hg. unfold idx, findData. now rewrite Hg. }
  assert (Hitems : cb_items combo' = cb_items combo)
    by (unfold combo'; now destruct (idx =? -1)).
  assert (Hc : (if idx =? -1 then combo' else setCurrentIndex combo' idx) = combo').
  { unfold combo'. now destruct (idx =? -1). }
  unfold setChecked_AutoStart, _useLocalServerAutoStartSlot.
  cbn [uiLocalServerPathLineEdit uiLocalServerHostComboBox
       uiLocalServerPortSpinBox uiLocalServerAutoStartCheckBox
       uiConsoleConnectionsToAnyIPCheckBox uiConsoleStartPortSpinBox
       uiConsoleEndPortSpinBox uiUDPStartPortSpinBox uiUDPEndPortSpinBox
       uiGeneralSettingsGroupBox uiConsolePortRangeGroupBox uiUDPPortRangeGroupBox].
  destruct (Bool.eqb sau au) eqn:E;
    cbn [uiLocalServerPathLineEdit uiLocalServerHostComboBox
         uiLocalServerPortSpinBox uiLocalServerAutoStartCheckBox
         uiConsoleConnectionsToAnyIPCheckBox uiConsoleStartPortSpinBox
         uiConsoleEndPortSpinBox uiUDPStartPortSpinBox uiUDPEndPortSpinBox
         uiGeneralSettingsGroupBox uiConsolePortRangeGroupBox uiUDPPortRangeGroupBox];
    rewrite (Hidx combo' Hitems), Hc, Bool.eqb_reflx; reflexivity.
Qed.

(** X8.  Loading twice is loading once: a second [loadPreferences] on the
    same service changes no widget, no item and no entry. *)
Theorem load_twice (sv : servers) (p : page) :
  loadPreferences sv (loadPreferences sv p) = loadPreferences sv p.
Proof.
  unfold loadPreferences at 1.
  unfold loadPreferences at 1 2.
  cbn [local_widgets remote_widgets]. now rewrite populate_idem.
Qed.

(** ** The calls of [savePreferences] *)

Ltac save_path_cases w p sv :=
  destruct (savePreferences_path w p sv);
  cbn [fst snd] in *;
  unfold not_executable_report, writes in *;
  repeat match goal with
         | s : local_settings |- _ =>
             match goal with
             | |- context [access_X_OK w (path s)] =>
                 destruct (access_X_OK w (path s))
             | H : context [access_X_OK w (path s)] |- _ =>
                 destruct (access_X_OK w (path s))
             end
         end;
  cbn [negb app] in *.

(** X9.  [savePreferences] starts the local server exactly when both
    ranges are valid, auto-start is on, the path is a file, the settings
    built from the form differ from the current ones and no node runs on
    the local server; and then the start is the call right after the
    blocking stop, which comes right after the three writes. *)
Theorem save_starts_server_iff (w : world) (p : page) (sv : servers) :
  let s := new_settings_of (localServerSettings sv) (local_widgets p) in
  (In startLocalServer (snd (savePreferences w p sv))
   <-> ranges_valid s /\ auto_start s = true /\ isfile w (path s) = true
       /\ s <> localServerSettings sv /\ local_nodes_of w = [])
  /\ (In startLocalServer (snd (savePreferences w p sv)) ->
      exists before last,
        snd (savePreferences w p sv)
        = before ++ writes s (_remote_servers p)
            ++ [stopLocalServer true; startLocalServer; last]
        /\ forallb is_report before = true).
Proof.
  intros s. split; [split |].
  - intros Hin. save_path_cases w p sv; subst s;
      try (cbn in Hin; intuition discriminate);
      repeat split; assumption.
  - intros (Hr & Ha & Hf & Hne & Hn). unfold s in *.
    rewrite save_restart by assumption. cbn [snd].
    apply in_or_app. right. right. now left.
  - intros Hin. save_path_cases w p sv; subst s;
      try (cbn in Hin; intuition discriminate).
    + now exists [], (if start_succeeds w
                      then WaitForConnection (host s0) (port s0)
                      else Report (CouldNotStart (path s0))).
    + now exists [Report (NotExecutable (path s0))],
                 (if start_succeeds w
                  then WaitForConnection (host s0) (port s0)
                  else Report (CouldNotStart (path s0))).
Qed.

(** X10.  The three writes are made together or not at all: when
    [savePreferences] makes any of them it makes [setLocalServerSettings],
    [updateRemoteServers] and [save] once each, in that order and next to
    one another, with the settings built from the form and the candidate
    dictionary as it is; the service then holds both, in memory and in
    storage. *)
Theorem save_writes_all_or_nothing (w : world) (p : page) (sv : servers) :
  let s := new_settings_of (localServerSettings sv) (local_widgets p) in
  let r := savePreferences w p sv in
  existsb is_write (snd r) = true ->
  (exists before after,
      snd r = before ++ writes s (_remote_servers p) ++ after
      /\ existsb is_write before = false
      /\ existsb is_write after = false)
  /\ localServerSettings (fst r) = s
  /\ remoteServers (fst r) = _remote_servers p
  /\ stored (fst r) = (s, _remote_servers p).
Proof.
  intros s r Hw. subst r. save_path_cases w p sv; subst s;
    try discriminate Hw;
    (split; [| repeat split]).
  - now exists [], [].
  - now exists [Report (NotExecutable (path s0))], [].
  - exists [], [stopLocalServer true; startLocalServer;
                if start_succeeds w then WaitForConnection (host s0) (port s0)
                else Report (CouldNotStart (path s0))].
    repeat split. now destruct (start_succeeds w).
  - exists [Report (NotExecutable (path s0))],
           [stopLocalServer true; startLocalServer;
            if start_succeeds w then WaitForConnection (host s0) (port s0)
            else Report (CouldNotStart (path s0))].
    repeat split. now destruct (start_succeeds w).
  - now exists [stopLocalServer true], [].
Qed.

(** X11.  The settings that [savePreferences] writes keep the three keys
    the form does not show: images_path, projects_path and report_errors
    are those of the current settings. *)
Theorem save_passes_hidden_keys_through (w : world) (p : page) (sv : servers)
    (x : local_settings) :
  In (setLocalServerSettings x) (snd (savePreferences w p sv)) ->
  images_path x = images_path (localServerSettings sv)
  /\ projects_path x = projects_path (localServerSettings sv)
  /\ report_errors x = report_errors (localServerSettings sv)
  /\ localServerSettings (fst (savePreferences w p sv)) = x.
Proof.
  intros Hin. save_path_cases w p sv;
    try destruct (start_succeeds w);
    cbn in Hin;
    repeat match goal with
           | H : _ \/ _ |- _ => destruct H
           | H : False |- _ => contradiction
           | H : _ = setLocalServerSettings _ |- _ => inversion H; clear H; subst
           end;
    repeat split.
Qed.

(** X12.  When the local server process does not start, the dialog
    StartFailed is the last call, no wait for a connection is made, and
    the settings have been written and persisted all the same. *)
Theorem save_start_failure (w : world) (p : page) (sv : servers) :
  let s := new_settings_of (localServerSettings sv) (local_widgets p) in
  let r := savePreferences w p sv in
  In startLocalServer (snd r) ->
  start_succeeds w = false ->
  (exists before, snd r = before ++ [startLocalServer; Report (CouldNotStart (path s))]
                  /\ In save before)
  /\ existsb (fun c => match c with WaitForConnection _ _ => true | _ => false end)
             (snd r) = false
  /\ stored (fst r) = (s, _remote_servers p).
Proof.
  intros s r Hin Hs. subst r. save_path_cases w p sv; subst s;
    try (cbn in Hin; intuition discriminate);
    rewrite Hs in *; (split; [| repeat split]).
  - eexists [_; _; _; _]. split; [reflexivity |]. cbn. tauto.
  - eexists [_; _; _; _; _]. split; [reflexivity |]. cbn. tauto.
Qed.

(** ** The group boxes *)

(** X13.  [_populateWidgets], given settings whose numbers are C ints (so
    that no [setValue] raises), leaves the auto-start box as the settings
    say.  The three group boxes follow only when that changes the box:
    they are then enabled exactly when auto-start is on, and otherwise
    they stay as they were; so group boxes that were in step with the box
    are in step after it. *)
Theorem populate_group_boxes (s : local_settings) (f : local_form) :
  numbers_c_int s ->
  let f' := _populateWidgets s f in
  let changed := negb (Bool.eqb (auto_start s) (uiLocalServerAutoStartCheckBox f)) in
  uiLocalServerAutoStartCheckBox f' = auto_start s
  /\ uiGeneralSettingsGroupBox f'
     = (if changed then auto_start s else uiGeneralSettingsGroupBox f)
  /\ uiConsolePortRangeGroupBox f'
     = (if changed then auto_start s else uiConsolePortRangeGroupBox f)
  /\ uiUDPPortRangeGroupBox f'
     = (if changed then auto_start s else uiUDPPortRangeGroupBox f)
  /\ (groups_follow_auto_start f -> groups_follow_auto_start f').
Proof.
  intros _.
  unfold _populateWidgets, setChecked_AutoStart, _useLocalServerAutoStartSlot,
    groups_follow_auto_start.
  cbn [uiLocalServerAutoStartCheckBox uiGeneralSettingsGroupBox
       uiConsolePortRangeGroupBox uiUDPPortRangeGroupBox
       uiLocalServerPathLineEdit uiLocalServerHostComboBox uiLocalServerPortSpinBox
       uiConsoleConnectionsToAnyIPCheckBox uiConsoleStartPortSpinBox
       uiConsoleEndPortSpinBox uiUDPStartPortSpinBox uiUDPEndPortSpinBox].
  destruct (Bool.eqb (auto_start s) (uiLocalServerAutoStartCheckBox f)) eqn:E;
    cbn;
    (split; [reflexivity | split; [reflexivity | split; [reflexivity |
       split; [reflexivity |]]]]).
  - apply Bool.eqb_prop in E. rewrite E. tauto.
  - tauto.
Qed.

(** ** Selecting a server *)

Lemma currentText_findText (cb : combobox) (t : pystr) :
  findText cb t <> -1 ->
  currentText (setCurrentIndex cb (findText cb t)) = t.
Proof.
  intros Hf. unfold findText in *.
  destruct (find_index_found _ (cb_items cb) 0 ltac:(lia) Hf)
    as [Hle ([t' d] & Hx & Hd)].
  unfold currentText, cb_nth, setCurrentIndex. cbn [cb_items cb_index].
  destruct (Z.ltb_spec (find_index (fun it => pystr_eqb (fst it) t) (cb_items cb) 0) 0);
    [lia |].
  rewrite Z.sub_0_r in Hx. rewrite Hx. cbn in *.
  now apply pystr_eqb_eq in Hd.
Qed.

(** The widgets after [_remoteServerClickedSlot]: the protocol selector on
    the entry that [findText] gave, the other fields as the record says. *)
Lemma click_widgets (item : tree_item) (f : remote_form) (v : ssh_widgets) :
  let r := item_settings item in
  fst (_remoteServerClickedSlot item (f, v))
  = RemoteForm
      (setCurrentIndex (uiRemoteServerProtocolComboBox f)
         (findText (uiRemoteServerProtocolComboBox f) (upper (r_protocol r))))
      (r_host r)
      (setValue (uiRemoteServerPortSpinBox f) (r_port r))
      (r_user r)
      (setValue (uiRemoteServerSSHPortSpinBox f) (r_ssh_port r))
      (r_ssh_key r).
Proof.
  unfold _remoteServerClickedSlot, setCurrentIndex_Protocol,
    _remoteServerProtocolCurrentIndexSlot. cbn [fst].
  destruct (_ =? _); [reflexivity |].
  destruct (pystr_eqb _ _); reflexivity.
Qed.

Lemma click_form_settings (item : tree_item) (p : page) (v : ssh_widgets) :
  let r := item_settings item in
  normalised r ->
  selectable r (remote_widgets p) ->
  form_settings
    (Page (local_widgets p)
          (fst (_remoteServerClickedSlot item (remote_widgets p, v)))
          (uiRemoteServersTreeWidget p) (_remote_servers p))
  = r.
Proof.
  intros r (Hl & Hh & Hu & Hk) (Hf & Hp & Hs).
  rewrite click_widgets. fold r.
  unfold form_settings, form_protocol, form_host, form_port, form_user,
    form_ssh_port, form_ssh_key.
  cbn [remote_widgets uiRemoteServerProtocolComboBox uiRemoteServerPortLineEdit
       uiRemoteServerPortSpinBox uiRemoteServerUserLineEdit
       uiRemoteServerSSHPortSpinBox uiRemoteServerSSHKeyLineEdit].
  rewrite currentText_findText by exact Hf.
  rewrite lower_upper, Hl, Hh, Hu, Hk.
  rewrite !setValue_in by assumption.
  now destruct r.
Qed.

(** X14.  Clicking an item whose record is as the add slot stores records
    (lower-case protocol, stripped host, user and key), which the widgets
    show whole (ASCII protocol, texts within the line edits' length, C int
    ports) and which the form can show (protocol on the selector, ports
    within the spin boxes' ranges) fills the form so that the add slot
    would read that very record back from it. *)
Theorem click_reads_back (item : tree_item) (p : page) (v : ssh_widgets) :
  let r := item_settings item in
  shown_whole r ->
  normalised r ->
  selectable r (remote_widgets p) ->
  form_settings
    (Page (local_widgets p)
          (fst (_remoteServerClickedSlot item (remote_widgets p, v)))
          (uiRemoteServersTreeWidget p) (_remote_servers p))
  = r.
Proof. intros r _. apply click_form_settings. Qed.


(** ** The constructor *)

Lemma load_addresses_items (addresses : list address) :
  forall cb,
    cb_items (load_addresses addresses cb)
    = cb_items cb
        ++ List.map (fun a => (toString a, toString a))
             (List.filter (fun a => negb (is_IPv6 a)) addresses).
Proof.
  unfold load_addresses.
  induction addresses as [| a l IH]; intros cb; cbn; [now rewrite app_nil_r |].
  rewrite IH. destruct (is_IPv6 a); cbn; [reflexivity |].
  now rewrite <- app_assoc.
Qed.

Lemma find_index_exists {A} (f : A -> bool) (l : list A) (x : A) :
  In x l -> f x = true -> forall i, 0 <= i -> find_index f l i <> -1.
Proof.
  induction l as [| y l IH]; intros Hin Hx i Hi; cbn; [contradiction |].
  destruct (f y) eqn:E; [lia |].
  destruct Hin as [-> | Hin]; [congruence |].
  now apply IH; [| | lia].
Qed.

(** X16.  After [__init__] the candidate dictionary is empty and the host
    selector has gained one entry per IPv4 address, in order, text and
    data both the address: no IPv6 address is offered.  When 127.0.0.1 is
    among the texts of the selector it is the current entry; and with an
    empty display list the list mirrors the dictionary. *)
Theorem init_page (addresses : list address) (ui : page * ssh_widgets) :
  let p := fst (__init__ addresses ui) in
  let combo := uiLocalServerHostComboBox (local_widgets p) in
  _remote_servers p = []
  /\ cb_items combo
     = cb_items (uiLocalServerHostComboBox (local_widgets (fst ui)))
         ++ List.map (fun a => (toString a, toString a))
              (List.filter (fun a => negb (is_IPv6 a)) addresses)
  /\ (In (py "127.0.0.1") (List.map fst (cb_items combo)) ->
      currentText combo = py "127.0.0.1")
  /\ (uiRemoteServersTreeWidget (fst ui) = [] -> mirrors p).
Proof.
  destruct ui as [p0 v]. unfold __init__.
  destruct (_remoteServerProtocolCurrentIndexSlot (remote_widgets p0, v)) as [r v'].
  cbn [fst _remote_servers local_widgets uiLocalServerHostComboBox
       uiRemoteServersTreeWidget].
  set (combo := load_addresses addresses (uiLocalServerHostComboBox (local_widgets p0))).
  assert (Hitems : cb_items (if findText combo (py "127.0.0.1") =? -1 then combo
                             else setCurrentIndex combo (findText combo (py "127.0.0.1")))
                   = cb_items combo) by now destruct (_ =? _).
  split; [reflexivity |]. split; [| split].
  - rewrite Hitems. apply load_addresses_items.
  - rewrite Hitems. intros Hin. apply in_map_iff in Hin as ([t d] & Ht & Hin).
    cbn in Ht. subst t.
    assert (Hf : findText combo (py "127.0.0.1") <> -1).
    { unfold findText. apply (find_index_exists _ _ _ Hin); [| lia].
      now apply pystr_eqb_eq. }
    destruct (Z.eqb_spec (findText combo (py "127.0.0.1")) (-1)); [contradiction |].
    now apply currentText_findText.
  - intros Ht. unfold mirrors. cbn [_remote_servers uiRemoteServersTreeWidget].
    split; [constructor | exact Ht].
Qed.

(** ** Instances *)

Lemma http_lab2_mirrors : mirrors AddSamples.http_lab2.
Proof. split; [repeat constructor; cbn; tauto | reflexivity]. Defined.

Lemma r1_normalised : normalised Sample.r1.
Proof. repeat split. Defined.

Lemma r1_selectable : selectable Sample.r1 (remote_widgets AddSamples.http_lab2).
Proof.
  unfold selectable, in_spinbox. cbn. repeat split; lia.
Defined.

Lemma good_numbers_c_int : numbers_c_int SaveSamples.good.
Proof. unfold numbers_c_int, c_int. cbn. lia. Defined.

Lemma good_path_fits : fits_line_edit (path SaveSamples.good).
Proof. unfold fits_line_edit. vm_compute. discriminate. Defined.

Lemma r1_shown_whole : shown_whole Sample.r1.
Proof.
  unfold shown_whole, fits_line_edit, c_int.
  repeat split; try (vm_compute; discriminate).
  repeat constructor.
Defined.

Lemma good_showable :
  showable SaveSamples.good (local_widgets SaveSamples.changed_page).
Proof.
  unfold showable, in_spinbox. cbn. repeat split; try lia.
  exists (py "127.0.0.1"). split; [reflexivity | cbn; lia].
Defined.

Lemma add_stores_checked_record_witness :
  exists r,
    Dict.get (TempUuid 7)
      (_remote_servers (fst (_remoteServerAddSlot 7 AddSamples.http_lab2))) = Some r
    /\ r = form_settings AddSamples.http_lab2
    /\ r_host r <> [] /\ forallb host_char (r_host r) = true
    /\ 1 <= r_port r
    /\ (r_protocol r = py "ssh" -> r_user r <> [] /\ r_ssh_key r <> [])
    /\ normalised r.
Proof. apply (add_stores_checked_record 7 AddSamples.http_lab2). reflexivity. Defined.

Lemma delete_keeps_mirror_witness :
  exists p',
    _remoteServerDeleteSlot (Some 0%nat) AddSamples.http_lab2 = Some p'
    /\ mirrors p'
    /\ local_widgets p' = local_widgets AddSamples.http_lab2
    /\ remote_widgets p' = remote_widgets AddSamples.http_lab2
    /\ (_remote_servers p' = []
        /\ uiRemoteServersTreeWidget p' = []
        /\ Dict.get (ServerKey (py "ssh://admin@lab1:8000")) (_remote_servers p') = None).
Proof.
  apply (delete_keeps_mirror (Some 0%nat) AddSamples.http_lab2 http_lab2_mirrors).
Defined.

Lemma add_then_delete_witness :
  _remoteServerDeleteSlot (Some 1%nat) (fst (_remoteServerAddSlot 7 AddSamples.http_lab2))
  = Some (Page (local_widgets AddSamples.http_lab2)
               (set_port_spinbox (Sample.port_box 8002)
                                 (remote_widgets AddSamples.http_lab2))
               [Sample.item1] Sample.one_server).
Proof. apply (add_then_delete 7 AddSamples.http_lab2); reflexivity. Defined.

Lemma load_rebuilds_candidates_witness :
  let p := loadPreferences MoreSamples.service_with_r1 MoreSamples.fresh_ui in
  _remote_servers p = Sample.one_server
  /\ uiRemoteServersTreeWidget p = [Sample.item1]
  /\ mirrors p
  /\ remote_widgets p = remote_widgets MoreSamples.fresh_ui.
Proof.
  apply (load_rebuilds_candidates MoreSamples.service_with_r1 MoreSamples.fresh_ui).
  - exact good_numbers_c_int.
  - repeat constructor. cbn. tauto.
Defined.

Lemma mirror_is_kept_witness :
  exists st',
    run (Add 7) (AddSamples.http_lab2, Sample.service SaveSamples.good) = Some st'
    /\ consistent st'.
Proof.
  apply (mirror_is_kept (Add 7) (AddSamples.http_lab2, Sample.service SaveSamples.good)).
  - split; [exact http_lab2_mirrors | constructor].
  - reflexivity.
Defined.

Lemma load_shows_current_settings_witness :
  new_settings_of SaveSamples.good
    (local_widgets (loadPreferences (Sample.service SaveSamples.good)
                                    SaveSamples.changed_page))
  = SaveSamples.good.
Proof.
  apply (load_shows_current_settings (Sample.service SaveSamples.good)
           SaveSamples.changed_page good_numbers_c_int good_path_fits good_showable).
Defined.

Lemma load_then_save_witness :
  let w := Sample.world_with true [Sample.R1] true in
  let sv := Sample.service SaveSamples.good in
  snd (savePreferences w (loadPreferences sv SaveSamples.changed_page) sv)
  = writes SaveSamples.good [].
Proof.
  intros w sv.
  apply (load_then_save w sv SaveSamples.changed_page
           good_numbers_c_int good_path_fits good_showable).
  - constructor.
  - split; reflexivity.
  - reflexivity.
Defined.

Lemma save_writes_all_or_nothing_witness :
  let w := Sample.world_with true [] true in
  let sv := Sample.service SaveSamples.good in
  let r := savePreferences w SaveSamples.changed_page sv in
  (exists before after,
      snd r = before ++ writes SaveSamples.changed Sample.one_server ++ after
      /\ existsb is_write before = false
      /\ existsb is_write after = false)
  /\ localServerSettings (fst r) = SaveSamples.changed
  /\ remoteServers (fst r) = Sample.one_server
  /\ stored (fst r) = (SaveSamples.changed, Sample.one_server).
Proof.
  intros w sv r.
  apply (save_writes_all_or_nothing w SaveSamples.changed_page sv). reflexivity.
Defined.

Lemma save_passes_hidden_keys_through_witness :
  let w := Sample.world_with true [] true in
  let sv := Sample.service SaveSamples.good in
  images_path SaveSamples.changed = images_path SaveSamples.good
  /\ projects_path SaveSamples.changed = projects_path SaveSamples.good
  /\ report_errors SaveSamples.changed = report_errors SaveSamples.good
  /\ localServerSettings (fst (savePreferences w SaveSamples.changed_page sv))
     = SaveSamples.changed.
Proof.
  intros w sv.
  apply (save_passes_hidden_keys_through w SaveSamples.changed_page sv SaveSamples.changed).
  cbn. tauto.
Defined.

Lemma save_start_failure_witness :
  let w := Sample.world_with true [] false in
  let sv := Sample.service SaveSamples.good in
  let r := savePreferences w SaveSamples.changed_page sv in
  (exists before,
      snd r = before ++ [startLocalServer;
                         Report (CouldNotStart (py "/usr/bin/gns3server"))]
      /\ In save before)
  /\ existsb (fun c => match c with WaitForConnection _ _ => true | _ => false end)
             (snd r) = false
  /\ stored (fst r) = (SaveSamples.changed, Sample.one_server).
Proof.
  intros w sv r.
  apply (save_start_failure w SaveSamples.changed_page sv); [cbn; tauto | reflexivity].
Defined.

Lemma click_reads_back_witness :
  form_settings
    (Page (local_widgets AddSamples.http_lab2)
          (fst (_remoteServerClickedSlot Sample.item1
                  (remote_widgets AddSamples.http_lab2, MoreSamples.all_hidden)))
          [Sample.item1] Sample.one_server)
  = Sample.r1.
Proof.
  apply (click_reads_back Sample.item1 AddSamples.http_lab2 MoreSamples.all_hidden
           r1_shown_whole r1_normalised r1_selectable).
Defined.


Lemma populate_group_boxes_witness :
  let f := local_widgets SaveSamples.off_page in
  let f' := _populateWidgets SaveSamples.good f in
  uiLocalServerAutoStartCheckBox f' = true
  /\ uiGeneralSettingsGroupBox f' = true
  /\ uiConsolePortRangeGroupBox f' = true
  /\ uiUDPPortRangeGroupBox f' = true
  /\ (groups_follow_auto_start f -> groups_follow_auto_start f').
Proof.
  intros f f'.
  apply (populate_group_boxes SaveSamples.good (local_widgets SaveSamples.off_page)
           good_numbers_c_int).
Defined.
